(** * Wardha District Court scraper: a shallow embedding and its properties

    This development embeds [scraper/fetch_wardha_case_data.py]
    (class [WardhaDistrictCourtScraper]) and proves, or refutes on concrete
    inputs, the properties its specification states.

    Conventions of the embedding.
    - Python [str] is [string]: a sequence of 8-bit characters.  Case
      mapping, [strip], and the regular-expression classes [\d], [\s], [\b]
      act on the ASCII range; Devanagari keywords are carried as their UTF-8
      bytes (they have no case).  On ASCII text the model and Python agree
      character for character.
    - A parsed page ([BeautifulSoup(..., 'html.parser')]) is a tree of
      [Tag]s and [NavigableString]s; an HTTP response carries the tree that
      parsing its body yields.
    - Python dictionaries used as maps are [gmap string string].
    - Instance attributes ([working_url], [last_raw_response]) and the
      outside world (requests sent, pauses, calls of the checking and
      extraction helpers) are threaded through a state monad; the remote
      side is an oracle whose answer to a request may depend on the whole
      history.
    - [logger] calls and the [debug_info] bookkeeping are left out: no
      branch of the code reads them. *)

From Stdlib Require Import ZArith Ascii DecimalString.
From stdpp Require Import base option list strings gmap.

Local Open Scope Z_scope.

(* ===================================================================== *)
(** * Text primitives (Python [str] methods) *)
(* ===================================================================== *)

Module Text.

(** [str.isspace] on the ASCII range. *)
Definition is_space (c : ascii) : bool :=
  match c with
  | "009" | "010" | "011" | "012" | "013"
  | "028" | "029" | "030" | "031" | " " => true
  | _ => false
  end%char.

Definition is_digit (c : ascii) : bool := (("0" <=? c) && (c <=? "9"))%char.
Definition is_upper (c : ascii) : bool := (("A" <=? c) && (c <=? "Z"))%char.
Definition is_lower (c : ascii) : bool := (("a" <=? c) && (c <=? "z"))%char.

(** The class [\w]. *)
Definition is_word (c : ascii) : bool :=
  is_digit c || is_upper c || is_lower c || Ascii.eqb c "_".

Definition lower_char (c : ascii) : ascii :=
  if is_upper c then ascii_of_N (N_of_ascii c + 32) else c.

(** [s.lower()] *)
Fixpoint lower (s : string) : string :=
  match s with
  | EmptyString => EmptyString
  | String c r => String (lower_char c) (lower r)
  end.



(** [s.startswith(p)] *)
Fixpoint startswith (p s : string) : bool :=
  match p, s with
  | EmptyString, _ => true
  | String a p', String b s' => Ascii.eqb a b && startswith p' s'
  | String _ _, EmptyString => false
  end.

(** [needle in hay] *)
Fixpoint str_in (needle hay : string) : bool :=
  startswith needle hay ||
  match hay with
  | EmptyString => false
  | String _ r => str_in needle r
  end.

(** [any(k in s for k in keywords)] *)
Definition any_in (keywords : list string) (s : string) : bool :=
  existsb (fun k => str_in k s) keywords.

Fixpoint lstrip (s : string) : string :=
  match s with
  | String c r => if is_space c then lstrip r else s
  | EmptyString => EmptyString
  end.

Fixpoint rstrip (s : string) : string :=
  match s with
  | EmptyString => EmptyString
  | String c r =>
      match rstrip r with
      | EmptyString => if is_space c then EmptyString else String c EmptyString
      | r' => String c r'
      end
  end.

(** [s.strip()] *)
Definition strip (s : string) : string := rstrip (lstrip s).

(** Truth value of a Python string. *)
Definition nonempty (s : string) : bool :=
  match s with EmptyString => false | _ => true end.

(** Truth value of a field that holds [None] or a string. *)
Definition truthy (o : option string) : bool :=
  match o with Some s => nonempty s | None => false end.

Definition digit_val (c : ascii) : Z := Z.of_N (N_of_ascii c) - 48.

(** [int(s)] for a run of decimal digits. *)
Definition int_of_digits (s : string) : Z :=
  fold_left (fun acc c => 10 * acc + digit_val c) (String.list_ascii_of_string s) 0.

(** [str(n)] *)
Definition str_of_int (n : Z) : string := NilZero.string_of_int (Z.to_int n).

(** [f"{n:0{w}d}"] for a non-negative [n]. *)
Definition zero_pad (w : nat) (n : Z) : string :=
  let s := str_of_int n in
  String.concat "" (replicate (w - String.length s) "0") +:+ s.

(** ["".join(parts)] *)
Definition join (parts : list string) : string := String.concat "" parts.

End Text.

(* ===================================================================== *)
(** * Regular expressions (the fragment of [re] the scraper uses) *)
(* ===================================================================== *)

Module Re.
Import Text.

Inductive regex :=
| REmpty
| RLit (s : string)
| RChars (p : ascii -> bool) (lo : nat) (hi : option nat)
| RBoundary
| RGroup (name : string) (r : regex)
| RAlt (r1 r2 : regex)
| RSeq (r1 r2 : regex).

(** A position in the subject: the character before it (for [\b]), the
    text after it, and the groups captured so far. *)
Record mstate := MState {
  prev : option ascii;
  rest : string;
  caps : list (string * string)
}.

Fixpoint advance (k : nat) (p : option ascii) (s : string) : option ascii * string :=
  match k, s with
  | S k', String c s' => advance k' (Some c) s'
  | _, _ => (p, s)
  end.

Definition consume (k : nat) (st : mstate) : mstate :=
  let '(p, s) := advance k (prev st) (rest st) in MState p s (caps st).

Fixpoint run_length (p : ascii -> bool) (s : string) : nat :=
  match s with
  | String c s' => if p c then S (run_length p s') else O
  | EmptyString => O
  end.

Definition word_at (o : option ascii) : bool :=
  match o with Some c => is_word c | None => false end.

Definition next_char (s : string) : option ascii :=
  match s with String c _ => Some c | EmptyString => None end.

Definition at_boundary (st : mstate) : bool :=
  xorb (word_at (prev st)) (word_at (next_char (rest st))).

Definition lit_prefix (icase : bool) (l s : string) : bool :=
  if icase then startswith (lower l) (lower s) else startswith l s.

Definition matched_text (st st' : mstate) : string :=
  String.substring 0 (String.length (rest st) - String.length (rest st')) (rest st).

(** All ways [r] matches at [st], most preferred first: alternatives left
    to right, repetitions longest first (greedy), as a backtracking
    matcher explores them. *)
Fixpoint exec (icase : bool) (r : regex) (st : mstate) : list mstate :=
  match r with
  | REmpty => [st]
  | RLit l =>
      if lit_prefix icase l (rest st) then [consume (String.length l) st] else []
  | RChars p lo hi =>
      let n := run_length p (rest st) in
      let top := match hi with Some h => Nat.min h n | None => n end in
      (fun k => consume k st) <$> reverse (seq lo (S top - lo))
  | RBoundary => if at_boundary st then [st] else []
  | RGroup name r' =>
      (fun st' => MState (prev st') (rest st')
                    ((name, matched_text st st') :: caps st'))
        <$> exec icase r' st
  | RAlt r1 r2 => exec icase r1 st ++ exec icase r2 st
  | RSeq r1 r2 => exec icase r1 st ≫= exec icase r2
  end.

(** [re.match(r, s)]: the preferred match anchored at the start. *)
Definition rmatch (icase : bool) (r : regex) (s : string) : option mstate :=
  head (exec icase r (MState None s [])).

(** Leftmost match at or after the current position: the text it
    matched and the position after it. *)
Fixpoint search_at (icase : bool) (r : regex) (p : option ascii) (s : string)
  : option (string * mstate) :=
  let st := MState p s [] in
  match exec icase r st with
  | st' :: _ => Some (matched_text st st', st')
  | [] =>
      match s with
      | EmptyString => None
      | String c s' => search_at icase r (Some c) s'
      end
  end.

(** [re.search(r, s)], returning [m.group(0)]. *)
Definition search (icase : bool) (r : regex) (s : string) : option string :=
  fst <$> search_at icase r None s.

Fixpoint findall_go (fuel : nat) (icase : bool) (r : regex)
    (p : option ascii) (s : string) : list string :=
  match fuel with
  | O => []
  | S fuel' =>
      match search_at icase r p s with
      | None => []
      | Some (m, st') =>
          m :: match m, rest st' with
               | EmptyString, EmptyString => []
               | EmptyString, String c s' => findall_go fuel' icase r (Some c) s'
               | _, s' => findall_go fuel' icase r (prev st') s'
               end
      end
  end.

(** [re.findall(r, s)] for a pattern without groups. *)
Definition findall (icase : bool) (r : regex) (s : string) : list string :=
  findall_go (S (String.length s)) icase r None s.

Definition seqs (rs : list regex) : regex := foldr RSeq REmpty rs.
Definition digits (lo : nat) (hi : option nat) : regex := RChars is_digit lo hi.
Definition one_of (cs : string) : regex :=
  RChars (fun c => existsb (Ascii.eqb c) (String.list_ascii_of_string cs)) 1 (Some 1%nat).

(** [\d{1,2}[-/\.]\d{1,2}[-/\.]\d{4}] *)
Definition date_dmy : regex :=
  seqs [digits 1 (Some 2%nat); one_of "-/."; digits 1 (Some 2%nat);
        one_of "-/."; digits 4 (Some 4%nat)].

(** [\d{4}[-/\.]\d{1,2}[-/\.]\d{1,2}] *)
Definition date_ymd : regex :=
  seqs [digits 4 (Some 4%nat); one_of "-/."; digits 1 (Some 2%nat);
        one_of "-/."; digits 1 (Some 2%nat)].

(** The same two shapes between [\b ... \b]. *)
Definition date_dmy_b : regex := seqs [RBoundary; date_dmy; RBoundary].
Definition date_ymd_b : regex := seqs [RBoundary; date_ymd; RBoundary].

(** [\d+] *)
Definition digit_run : regex := digits 1 None.

End Re.

(* ===================================================================== *)
(** * [datetime.strptime] / [strftime] (CPython's [_strptime], C locale) *)
(* ===================================================================== *)

Module Strptime.
Import Text Re.

Record date := Date { year : Z; month : Z; day : Z }.

Definition range (lo hi : ascii) (c : ascii) : bool := ((lo <=? c) && (c <=? hi))%char.
Definition ch (p : ascii -> bool) : regex := RChars p 1 (Some 1%nat).
Definition alts (rs : list regex) : regex :=
  match rs with
  | [] => RChars (fun _ => false) 1 (Some 1%nat)
  | r :: rs' => fold_left RAlt rs' r
  end.

(** [calendar.month_name] and [calendar.month_abbr], lower-cased. *)
Definition f_month : list string :=
  [""; "january"; "february"; "march"; "april"; "may"; "june"; "july";
   "august"; "september"; "october"; "november"; "december"].
Definition a_month : list string :=
  [""; "jan"; "feb"; "mar"; "apr"; "may"; "jun"; "jul";
   "aug"; "sep"; "oct"; "nov"; "dec"].

(** [sorted(names, key=len, reverse=True)], as [__seqToRE] orders the
    alternatives. *)
Definition f_month_re : list string :=
  ["september"; "february"; "november"; "december"; "january"; "october";
   "august"; "march"; "april"; "june"; "july"; "may"].
Definition a_month_re : list string :=
  ["jan"; "feb"; "mar"; "apr"; "may"; "jun"; "jul"; "aug"; "sep"; "oct"; "nov"; "dec"].

(** The regular expression of one format directive. *)
Definition directive_re (c : ascii) : option regex :=
  match c with
  | "d" => Some (RGroup "d" (alts
             [RSeq (RLit "3") (ch (range "0" "1"));       (* 3[0-1] *)
              RSeq (ch (range "1" "2")) (ch is_digit);    (* [1-2]\d *)
              RSeq (RLit "0") (ch (range "1" "9"));       (* 0[1-9] *)
              ch (range "1" "9");                         (* [1-9] *)
              RSeq (RLit " ") (ch (range "1" "9"))]))     (* " [1-9]" *)
  | "m" => Some (RGroup "m" (alts
             [RSeq (RLit "1") (ch (range "0" "2"));       (* 1[0-2] *)
              RSeq (RLit "0") (ch (range "1" "9"));       (* 0[1-9] *)
              ch (range "1" "9")]))                       (* [1-9] *)
  | "Y" => Some (RGroup "Y" (digits 4 (Some 4%nat)))      (* \d\d\d\d *)
  | "y" => Some (RGroup "y" (digits 2 (Some 2%nat)))      (* \d\d *)
  | "B" => Some (RGroup "B" (alts (RLit <$> f_month_re)))
  | "b" => Some (RGroup "b" (alts (RLit <$> a_month_re)))
  | _ => None
  end%char.

(** [TimeRE.pattern]: a run of white space in the format stands for
    [\s+], a directive for its expression, anything else for itself.
    [None] when the format has a directive outside the table. *)
Fixpoint pattern (in_space : bool) (fmt : string) : option regex :=
  match fmt with
  | EmptyString => Some REmpty
  | String "%" (String c r) =>
      d ← directive_re c; p ← pattern false r; Some (RSeq d p)
  | String c r =>
      if is_space c then
        p ← pattern true r;
        Some (if in_space then p else RSeq (RChars is_space 1 None) p)
      else
        p ← pattern false r; Some (RSeq (RLit (String c EmptyString)) p)
  end.

Definition is_leap (y : Z) : bool :=
  ((y mod 4 =? 0) && negb (y mod 100 =? 0)) || (y mod 400 =? 0).

Definition days_in_month (y m : Z) : Z :=
  if m =? 2 then (if is_leap y then 29 else 28)
  else if (m =? 4) || (m =? 6) || (m =? 9) || (m =? 11) then 30
  else 31.

Definition group (name : string) (st : mstate) : option string :=
  snd <$> find (fun kv => String.eqb (fst kv) name) (caps st).

(** Position of [x] in [l] ([list.index]). *)
Fixpoint index_of (x : string) (l : list string) : option Z :=
  match l with
  | [] => None
  | y :: l' => if String.eqb x y then Some 0 else Z.succ <$> index_of x l'
  end.

Definition py_int (s : string) : Z := int_of_digits (strip s).

(** [datetime.strptime(s, fmt)]; [None] stands for [ValueError]. *)
Definition strptime (s fmt : string) : option date :=
  re ← pattern false fmt;
  st ← rmatch true re s;
  (* "unconverted data remains" *)
  guard (rest st = EmptyString);;
  let y :=
    match group "Y" st, group "y" st with
    | Some t, _ => py_int t
    | None, Some t => let v := py_int t in if v <=? 68 then v + 2000 else v + 1900
    | None, None => 1900
    end in
  let m :=
    match group "m" st, group "B" st, group "b" st with
    | Some t, _, _ => py_int t
    | None, Some t, _ => default 1 (index_of (lower t) f_month)
    | None, None, Some t => default 1 (index_of (lower t) a_month)
    | None, None, None => 1
    end in
  let d := match group "d" st with Some t => py_int t | None => 1 end in
  (* "year 0 is out of range", "day is out of range for month" *)
  guard (1 <= y <= 9999);;
  guard (1 <= d <= days_in_month y m);;
  Some (Date y m d).

(** [d.strftime('%Y-%m-%d')] for a four-digit year. *)
Definition strftime_iso (d : date) : string :=
  zero_pad 4 (year d) +:+ "-" +:+ zero_pad 2 (month d) +:+ "-" +:+ zero_pad 2 (day d).

End Strptime.

(* ===================================================================== *)
(** * Parsed pages (the fragment of BeautifulSoup the scraper uses) *)
(* ===================================================================== *)

Module Bs4.
Import Text.

(** A page element.  [NavigableString]s are the strings [get_text]
    yields; attribute dictionaries are association lists with distinct
    keys. *)
#[warnings="-register-all"]
Inductive node :=
| NavigableString (s : string)
| Tag (name : string) (attrs : list (string * string)) (contents : list node).

(** An element together with its [.parent] and [.next_sibling]. *)
Record located := Located {
  self : node;
  parent : node;
  next_sibling : option node
}.


(** [.descendants], in document order. *)
Fixpoint walk (n : node) : list located :=
  match n with
  | NavigableString _ => []
  | Tag _ _ cs =>
      (fix go (l : list node) : list located :=
         match l with
         | [] => []
         | c :: l' => Located c n (head l') :: walk c ++ go l'
         end) cs
  end.

Definition descendants (n : node) : list node := self <$> walk n.

Definition is_named (names : list string) (n : node) : bool :=
  match n with
  | Tag t _ _ => existsb (String.eqb t) names
  | NavigableString _ => false
  end.

(** [el.get(attr)] *)
Definition get (attr : string) (n : node) : option string :=
  match n with
  | Tag _ ats _ => snd <$> find (fun kv => String.eqb (fst kv) attr) ats
  | NavigableString _ => None
  end.

Definition attr_is (attr val : string) (n : node) : bool :=
  match get attr n with Some v => String.eqb v val | None => false end.

Definition attr_contains (attr sub : string) (n : node) : bool :=
  match get attr n with Some v => str_in sub v | None => false end.

(** The tokens of a [class] attribute. *)
Definition classes (n : node) : list string :=
  match get "class" n with
  | Some v => Re.findall false (Re.RChars (fun c => negb (is_space c)) 1 None) v
  | None => []
  end.

(** [n.find_all(names)] *)
Definition find_all (names : list string) (n : node) : list node :=
  List.filter (is_named names) (descendants n).

(** [n.find_all(names)], keeping each hit's surroundings. *)
Definition find_all_located (names : list string) (n : node) : list located :=
  List.filter (fun l => is_named names (self l)) (walk n).

(** [n.find_all(names, class_=[...])]: some class token is in the list. *)
Definition find_all_class_in (names cls : list string) (n : node) : list node :=
  List.filter (fun e => existsb (fun t => existsb (String.eqb t) cls) (classes e))
              (find_all names n).

(** [.strings] *)
Fixpoint strings (n : node) : list string :=
  match n with
  | NavigableString s => [s]
  | Tag _ _ cs =>
      (fix go (l : list node) : list string :=
         match l with
         | [] => []
         | c :: l' => strings c ++ go l'
         end) cs
  end.

(** [n.get_text()] *)
Definition get_text (n : node) : string := join (strings n).

(** [n.get_text(strip=True)] *)
Definition get_text_strip (n : node) : string :=
  join (List.filter nonempty (strip <$> strings n)).

(** The CSS selectors of [_check_captcha]. *)
Inductive selector :=
| AttrContains (tag attr sub : string)   (* tag[attr*="sub"] *)
| TagClass (tag cls : string)            (* tag.cls *)
| AnyClass (cls : string).               (* .cls *)

Definition has_class (cls : string) (n : node) : bool :=
  existsb (String.eqb cls) (classes n).

Definition is_tag (n : node) : bool :=
  match n with Tag _ _ _ => true | NavigableString _ => false end.

Definition selects (sel : selector) (n : node) : bool :=
  match sel with
  | AttrContains tag attr sub => is_named [tag] n && attr_contains attr sub n
  | TagClass tag cls => is_named [tag] n && has_class cls n
  | AnyClass cls => is_tag n && has_class cls n
  end.

(** [soup.select(sel)] *)
Definition select (sel : selector) (n : node) : list node :=
  List.filter (selects sel) (descendants n).

(** [href=re.compile(r'\.pdf', re.I)] *)
Definition href_is_pdf (n : node) : bool :=
  match get "href" n with
  | Some h => bool_decide (is_Some (Re.search true (Re.RLit ".pdf") h))
  | None => false
  end.

End Bs4.
(* ===================================================================== *)
(** * The scraper: data *)
(* ===================================================================== *)

Import Text Bs4.

(** What [urljoin(base, href)] stands for is left symbolic. *)
Inductive link :=
| Absolute (href : string)
| UrlJoin (base href : string).

Record order := Order {
  description : string;
  pdf_link : option link;
  date : option string;
  court : string
}.

Record patterns := Patterns {
  dates : list string;
  legal_terms : list string;
  maharashtra_terms : list string
}.

(** The [case_data] dictionary ([last_updated], a clock reading, is left
    out). *)
Record case_data := CaseData {
  case_title : string;
  court_name : string;
  petitioner : list string;
  respondent : list string;
  filing_date : option string;
  next_hearing_date : option string;
  status : option string;
  stage : option string;
  judge : option string;
  orders : list order;
  note : option string;
  patterns_found : option patterns
}.

Definition add_petitioner (v : string) (c : case_data) : case_data :=
  CaseData (case_title c) (court_name c)
    (if bool_decide (v ∈ petitioner c) then petitioner c else petitioner c ++ [v])
    (respondent c) (filing_date c) (next_hearing_date c) (status c) (stage c)
    (judge c) (orders c) (note c) (patterns_found c).

Definition add_respondent (v : string) (c : case_data) : case_data :=
  CaseData (case_title c) (court_name c) (petitioner c)
    (if bool_decide (v ∈ respondent c) then respondent c else respondent c ++ [v])
    (filing_date c) (next_hearing_date c) (status c) (stage c)
    (judge c) (orders c) (note c) (patterns_found c).

Definition set_filing_date (v : option string) (c : case_data) : case_data :=
  CaseData (case_title c) (court_name c) (petitioner c) (respondent c)
    v (next_hearing_date c) (status c) (stage c) (judge c) (orders c)
    (note c) (patterns_found c).

Definition set_next_hearing_date (v : option string) (c : case_data) : case_data :=
  CaseData (case_title c) (court_name c) (petitioner c) (respondent c)
    (filing_date c) v (status c) (stage c) (judge c) (orders c)
    (note c) (patterns_found c).

Definition set_status (v : string) (c : case_data) : case_data :=
  CaseData (case_title c) (court_name c) (petitioner c) (respondent c)
    (filing_date c) (next_hearing_date c) (Some v) (stage c) (judge c) (orders c)
    (note c) (patterns_found c).

Definition set_stage (v : string) (c : case_data) : case_data :=
  CaseData (case_title c) (court_name c) (petitioner c) (respondent c)
    (filing_date c) (next_hearing_date c) (status c) (Some v) (judge c) (orders c)
    (note c) (patterns_found c).

Definition set_judge (v : string) (c : case_data) : case_data :=
  CaseData (case_title c) (court_name c) (petitioner c) (respondent c)
    (filing_date c) (next_hearing_date c) (status c) (stage c) (Some v) (orders c)
    (note c) (patterns_found c).

Definition set_orders (v : list order) (c : case_data) : case_data :=
  CaseData (case_title c) (court_name c) (petitioner c) (respondent c)
    (filing_date c) (next_hearing_date c) (status c) (stage c) (judge c) v
    (note c) (patterns_found c).

Definition set_case_title (v : string) (c : case_data) : case_data :=
  CaseData v (court_name c) (petitioner c) (respondent c)
    (filing_date c) (next_hearing_date c) (status c) (stage c) (judge c) (orders c)
    (note c) (patterns_found c).

Definition base_url : string := "https://wardha.dcourts.gov.in".

(** [self.search_urls] as [__init__] sets it. *)
Definition search_urls_init : list string :=
  [base_url +:+ "/case-status-search-by-case-number/";
   base_url +:+ "/case-status-search-by-case-type/";
   base_url +:+ "/case-status/";
   "https://districts.ecourts.gov.in/wardha/case-status";
   "https://districts.ecourts.gov.in/wardha";
   "https://services.ecourts.gov.in/ecourtindia_v6/";
   "https://ecourts.gov.in/ecourts_home/static/district_court.php?state_cd=27&dist_cd=664";
   base_url +:+ "/";
   "https://hcservices.ecourts.gov.in/hcservices/Client/";
   "https://njdg.ecourts.gov.in/njdgnew/index.php"].

(* ===================================================================== *)
(** * [_check_captcha] *)
(* ===================================================================== *)

Record captcha_element := CaptchaElement {
  ce_type : string;
  ce_count : nat;
  ce_selector : selector
}.

Record captcha_info := CaptchaInfo {
  has_captcha : bool;
  captcha_type : option string;
  captcha_elements : list captcha_element
}.

Definition captcha_indicators : list (selector * string) :=
  [(AttrContains "img" "src" "captcha", "image");
   (AttrContains "input" "name" "captcha", "input");
   (TagClass "div" "captcha", "div");
   (AnyClass "g-recaptcha", "recaptcha");
   (AttrContains "iframe" "src" "recaptcha", "recaptcha_iframe");
   (AttrContains "script" "src" "recaptcha", "recaptcha_script");
   (AttrContains "input" "placeholder" "captcha", "input_placeholder")].

(** One turn of the loop over the indicators. *)
Definition captcha_step (soup : node) (info : captcha_info)
    (indicator : selector * string) : captcha_info :=
  let elements := select indicator.1 soup in
  match elements with
  | [] => info
  | _ :: _ =>
      CaptchaInfo true (Some indicator.2)
        (captcha_elements info ++
           [CaptchaElement indicator.2 (length elements) indicator.1])
  end.

Definition captcha_words : list string :=
  ["captcha"; "verification code"; "security code"].

Definition _check_captcha (soup : node) : captcha_info :=
  let info := foldl (captcha_step soup) (CaptchaInfo false None []) captcha_indicators in
  let page_text := lower (get_text soup) in
  if any_in captcha_words page_text then
    CaptchaInfo true
      (match captcha_type info with Some t => Some t | None => Some "text_based" end)
      (captcha_elements info)
  else info.

(* ===================================================================== *)
(** * [_extract_hidden_fields] and [_prepare_form_data] *)
(* ===================================================================== *)

Definition hidden_field_names : list string :=
  ["__VIEWSTATE"; "__VIEWSTATEGENERATOR"; "__EVENTVALIDATION";
   "__EVENTTARGET"; "__EVENTARGUMENT"; "__LASTFOCUS";
   "__VIEWSTATEENCRYPTED"; "__PREVIOUSPAGE"; "__SCROLLPOSITIONX";
   "__SCROLLPOSITIONY"; "javax.faces.ViewState"; "authenticity_token";
   "csrf_token"; "_token"; "session_id"; "form_token"].

(** [soup.find('input', {'name': field_name, 'type': 'hidden'})] *)
Definition find_hidden_input (soup : node) (field_name : string) : option node :=
  find (fun e => attr_is "name" field_name e && attr_is "type" "hidden" e)
       (find_all ["input"] soup).

Definition hidden_by_name (soup : node) (hidden_fields : gmap string string)
    (field_name : string) : gmap string string :=
  match find_hidden_input soup field_name with
  | Some element =>
      match get "value" element with
      | Some v => if nonempty v then <[field_name := v]> hidden_fields else hidden_fields
      | None => hidden_fields
      end
  | None => hidden_fields
  end.

Definition hidden_any (hidden_fields : gmap string string) (hidden : node)
    : gmap string string :=
  let value := default "" (get "value" hidden) in
  match get "name" hidden with
  | Some name =>
      if nonempty name && negb (bool_decide (is_Some (hidden_fields !! name)))
      then <[name := value]> hidden_fields
      else hidden_fields
  | None => hidden_fields
  end.

Definition _extract_hidden_fields (soup : node) : gmap string string :=
  let hidden_fields := foldl (hidden_by_name soup) ∅ hidden_field_names in
  let all_hidden := List.filter (attr_is "type" "hidden") (find_all ["input"] soup) in
  foldl hidden_any hidden_fields all_hidden.

(** [d.update(h)]: the entries of [h] are written into [d]. *)
Definition dict_update (d h : gmap string string) : gmap string string := h ∪ d.

Definition form_variations (case_type case_number : string) (filing_year : Z)
    : list (gmap string string) :=
  [ (* Strategy 1: Most common eCourts field names *)
    list_to_map [("case_type", case_type); ("case_no", case_number);
                 ("case_year", str_of_int filing_year); ("submit", "Submit");
                 ("court_code", "wardha")];
    (* Strategy 2: Alternative naming conventions *)
    list_to_map [("casetype", case_type); ("caseno", case_number);
                 ("caseyear", str_of_int filing_year); ("Submit", "Search");
                 ("district", "Wardha")];
    (* Strategy 3: Detailed form fields *)
    list_to_map [("txtCaseType", case_type); ("txtCaseNo", case_number);
                 ("txtYear", str_of_int filing_year); ("btnSearch", "Search");
                 ("ddlDistrict", "Wardha")];
    (* Strategy 4: Dropdown-based approach *)
    list_to_map [("ddlCaseType", case_type); ("txtCaseNumber", case_number);
                 ("ddlYear", str_of_int filing_year); ("Button1", "Submit");
                 ("ddlCourt", "District Court Wardha")];
    (* Strategy 5: Maharashtra-specific patterns *)
    list_to_map [("case_type_name", case_type); ("case_number", case_number);
                 ("filing_year", str_of_int filing_year);
                 ("search_button", "Get Case Status");
                 ("state_code", "27"); ("district_code", "664")];
    (* Strategy 6: Simple form approach *)
    list_to_map [("type", case_type); ("number", case_number);
                 ("year", str_of_int filing_year); ("action", "search")];
    (* Strategy 7: API-style parameters *)
    list_to_map [("caseType", case_type); ("caseNumber", case_number);
                 ("filingYear", str_of_int filing_year);
                 ("searchType", "case_number"); ("format", "html")] ].

Definition _prepare_form_data (soup : node) (case_type case_number : string)
    (filing_year : Z) : list (gmap string string) :=
  let hidden_fields := _extract_hidden_fields soup in
  (fun variation => dict_update variation hidden_fields)
    <$> form_variations case_type case_number filing_year.
(* ===================================================================== *)
(** * [_parse_date] *)
(* ===================================================================== *)

Definition date_formats : list string :=
  ["%d-%m-%Y"; "%d/%m/%Y"; "%Y-%m-%d"; "%Y/%m/%d";
   "%d-%m-%y"; "%d/%m/%y"; "%y-%m-%d"; "%y/%m/%d";
   "%d.%m.%Y"; "%d.%m.%y"; "%Y.%m.%d";
   "%d %m %Y"; "%d %m %y"; "%Y %m %d";
   "%B %d, %Y"; "%b %d, %Y"; "%d %B %Y"; "%d %b %Y";
   "%B %d %Y"; "%b %d %Y";
   "%d-%m-%Y"; "%d/%m/%Y"].

Definition year_ok (y : Z) : bool := (1950 <=? y) && (y <=? 2030).

(** The loop over [date_formats]: the first format that parses to a year
    in range gives the result. *)
Fixpoint try_formats (fmts : list string) (date_str : string) : option string :=
  match fmts with
  | [] => None
  | fmt :: fmts' =>
      match Strptime.strptime date_str fmt with
      | Some parsed_date =>
          if year_ok (Strptime.year parsed_date)
          then Some (Strptime.strftime_iso parsed_date)
          else try_formats fmts' date_str
      | None => try_formats fmts' date_str
      end
  end.

(** Two-digit years: below 30 the 2000s, else the 1900s. *)
Definition expand_year (year : Z) : Z :=
  if year <? 100 then (if year <? 30 then year + 2000 else year + 1900) else year.

(** The manual extraction from the runs of digits; [None] when it gives
    no date. *)
Definition from_digit_runs (date_str : string) : option string :=
  match Re.findall false Re.digit_run date_str with
  | n0 :: n1 :: n2 :: _ =>
      let day := int_of_digits n0 in
      let month := int_of_digits n1 in
      let year := expand_year (int_of_digits n2) in
      if (1 <=? day) && (day <=? 31) && (1 <=? month) && (month <=? 12) && year_ok year
      then Some (zero_pad 4 year +:+ "-" +:+ zero_pad 2 month +:+ "-" +:+ zero_pad 2 day)
      else None
  | _ => None
  end.

(** [None] is Python's [None]. *)
Definition _parse_date (date_str : string) : option string :=
  if negb (nonempty date_str) || negb (nonempty (strip date_str)) then None
  else
    let date_str := strip date_str in
    match try_formats date_formats date_str with
    | Some r => Some r
    | None =>
        match from_digit_runs date_str with
        | Some r => Some r
        | None => Some date_str
        end
    end.

(* ===================================================================== *)
(** * [_extract_orders] *)
(* ===================================================================== *)

Definition date_patterns : list Re.regex := [Re.date_dmy; Re.date_ymd].

(** [for pattern in date_patterns: ... if date_match: ...; break].
    [None]: no pattern matched; [Some d]: the value assigned to
    [order['date']]. *)
Fixpoint search_date (pats : list Re.regex) (text : string) : option (option string) :=
  match pats with
  | [] => None
  | pat :: pats' =>
      match Re.search false pat text with
      | Some m => Some (_parse_date m)
      | None => search_date pats' text
      end
  end.

Definition absolute (href : string) : link :=
  if startswith "http" href then Absolute href else UrlJoin base_url href.

Definition has_description (d : string) (os : list order) : bool :=
  existsb (fun o => String.eqb (description o) d) os.

(** First pass: one order per PDF link. *)
Definition pdf_link_step (os : list order) (l : located) : list order :=
  match get "href" (self l) with
  | Some href =>
      if nonempty href then
        let link_text := get_text_strip (self l) in
        let link_text :=
          if nonempty link_text then link_text else "Wardha District Court Document" in
        let date0 := default None (search_date date_patterns link_text) in
        let date1 :=
          if truthy date0 then date0
          else default date0 (search_date date_patterns (get_text (parent l))) in
        os ++ [Order link_text (Some (absolute href)) date1 "Wardha District Court"]
      else os
  | None => os
  end.

(** Second pass: table rows that look like orders. *)
Definition table_row_step (os : list order) (row : node) : list order :=
  let cells := find_all ["td"; "th"] row in
  match cells with
  | c0 :: _ :: _ =>
      let first_cell := lower (get_text_strip c0) in
      if any_in ["order"; "judgment"; "date"; "आदेश"; "निर्णय"] first_cell then
        let order_text := String.concat " " (get_text_strip <$> cells) in
        if (20 <? String.length order_text)%nat
           && negb (has_description order_text os)
           && any_in ["order"; "judgment"; "hearing"; "notice"] (lower order_text)
        then
          os ++ [Order order_text None
                   (default None (search_date date_patterns order_text))
                   "Wardha District Court"]
        else os
      else os
  | _ => os
  end.

(** [class_=re.compile(r'order|judgment|hearing', re.I)].  The pattern has
    no white space, so it occurs in the attribute exactly when it occurs
    in one of its tokens. *)
Definition is_order_container (n : node) : bool :=
  existsb (fun t => any_in ["order"; "judgment"; "hearing"] (lower t)) (classes n).

(** Third pass: items of order-like containers. *)
Definition container_item_step (os : list order) (item : node) : list order :=
  let item_text := get_text_strip item in
  if (15 <? String.length item_text)%nat
     && any_in ["order"; "hearing"; "notice"; "judgment"] (lower item_text)
  then
    let pdf :=
      match find href_is_pdf (find_all ["a"] item) with
      | Some a => absolute <$> get "href" a
      | None => None
      end in
    let o := Order item_text pdf
               (default None (search_date date_patterns item_text))
               "Wardha District Court" in
    if negb (has_description (description o) os) then os ++ [o] else os
  else os.

Definition pdf_links (soup : node) : list located :=
  List.filter (fun l => href_is_pdf (self l)) (find_all_located ["a"] soup).

Definition table_rows (soup : node) : list node :=
  find_all ["table"] soup ≫= find_all ["tr"].

Definition order_items (soup : node) : list node :=
  List.filter is_order_container (find_all ["div"; "ul"; "ol"] soup)
    ≫= find_all ["li"; "p"; "div"].

Definition _extract_orders (soup : node) : list order :=
  let orders := foldl pdf_link_step [] (pdf_links soup) in
  let orders := foldl table_row_step orders (table_rows soup) in
  let orders := foldl container_item_step orders (order_items soup) in
  take 10 orders.
(* ===================================================================== *)
(** * [_extract_case_info], [_is_valid_case_data], [_alternative_parsing] *)
(* ===================================================================== *)

(** [f"{case_type} {case_number}/{filing_year}"] *)
Definition default_title (case_type case_number : string) (filing_year : Z) : string :=
  case_type +:+ " " +:+ case_number +:+ "/" +:+ str_of_int filing_year.

(** One table row: the first cell is the label, the second the value. *)
Definition info_row_step (c : case_data) (row : node) : case_data :=
  match find_all ["td"; "th"] row with
  | c0 :: c1 :: _ =>
      let label := lower (get_text_strip c0) in
      let value := get_text_strip c1 in
      if negb (nonempty value) then c
      else if any_in ["petitioner"; "applicant"; "plaintiff"; "अर्जदार"; "फिर्यादी"] label
      then add_petitioner value c
      else if any_in ["respondent"; "defendant"; "प्रतिवादी"; "बचावपक्ष"] label
      then add_respondent value c
      else if any_in ["filing"; "दाखल"; "date"] label && str_in "date" label
      then set_filing_date (_parse_date value) c
      else if any_in ["next"; "hearing"; "list"; "सुनावणी"; "पुढील"] label
      then (if str_in "date" label then set_next_hearing_date (_parse_date value) c else c)
      else if any_in ["status"; "stage"; "स्थिती"; "टप्पा"] label
      then (if str_in "status" label then set_status value c else set_stage value c)
      else if any_in ["judge"; "न्यायाधीश"; "न्यायमूर्ती"] label
      then set_judge value c
      else if any_in ["current"; "present"; "सध्याचा"] label
      then (if truthy (status c) then c else set_status value c)
      else c
  | _ => c
  end.

(** Truth value of [label.next_sibling]: a string when not empty, a tag
    always. *)
Definition sibling_truthy (n : node) : bool :=
  match n with NavigableString s => nonempty s | Tag _ _ _ => true end.

Definition structured_label_step (c : case_data) (label : located) : case_data :=
  let label_text := lower (get_text_strip (self label)) in
  match next_sibling label with
  | Some sib =>
      if sibling_truthy sib then
        let value :=
          match sib with
          | NavigableString s => strip s
          | Tag _ _ _ => get_text_strip sib
          end in
        if nonempty value && any_in ["petitioner"; "applicant"] label_text
        then add_petitioner value c
        else if nonempty value && any_in ["respondent"; "defendant"] label_text
        then add_respondent value c
        else c
      else c
  | None => c
  end.

Definition _extract_from_structured_div (div : node) (c : case_data) : case_data :=
  foldl structured_label_step c (find_all_located ["label"; "span"; "strong"; "b"] div).

Definition detail_div_step (case_number : string) (filing_year : Z)
    (c : case_data) (div : node) : case_data :=
  let div_text := get_text div in
  if str_in case_number div_text && str_in (str_of_int filing_year) div_text
  then _extract_from_structured_div div c
  else c.

Definition is_title_header (case_number : string) (filing_year : Z) (header : node) : bool :=
  let header_text := get_text_strip header in
  (str_in case_number header_text && str_in (str_of_int filing_year) header_text)
  || str_in "wardha" (lower header_text).

Definition _extract_case_info (soup : node) (case_type case_number : string)
    (filing_year : Z) : case_data :=
  let c := CaseData (default_title case_type case_number filing_year)
             "District and Sessions Court, Wardha"
             [] [] None None None None None [] None None in
  let c := foldl info_row_step c (find_all ["table"] soup ≫= find_all ["tr"]) in
  let c := set_orders (_extract_orders soup) c in
  let c :=
    match find (is_title_header case_number filing_year)
               (find_all ["h1"; "h2"; "h3"; "h4"] soup) with
    | Some header => set_case_title (get_text_strip header) c
    | None => c
    end in
  foldl (detail_div_step case_number filing_year) c
    (find_all_class_in ["div"] ["case-details"; "case-info"; "result"; "case-data"] soup).

Definition nonempty_list {A} (l : list A) : bool :=
  match l with [] => false | _ => true end.

Definition _is_valid_case_data (c : case_data) : bool :=
  let has_parties := nonempty_list (petitioner c) || nonempty_list (respondent c) in
  let has_dates := truthy (filing_date c) || truthy (next_hearing_date c) in
  let has_status := truthy (status c) || truthy (stage c) in
  let has_orders := nonempty_list (orders c) in
  let has_judge := truthy (judge c) in
  has_parties || has_dates || has_status || has_orders || has_judge.

Definition legal_terms_vocabulary : list string :=
  ["petitioner"; "respondent"; "plaintiff"; "defendant"; "hearing";
   "order"; "judgment"; "court"; "case"; "filing"; "status";
   "अर्जदार"; "प्रतिवादी"; "सुनावणी"; "आदेश"; "न्यायालय"; "केस"].

Definition maharashtra_vocabulary : list string :=
  ["wardha"; "maharashtra"; "district court"; "जिल्हा न्यायालय"].

(** The matches of the two date patterns, in the order found. *)
Definition found_dates (page_text : string) : list string :=
  Re.findall false Re.date_dmy_b page_text ++ Re.findall false Re.date_ymd_b page_text.

(** The [patterns_found] dictionary; a key is present when its list is not
    empty.  Python keeps [list(set(dates))[:5]]: five of the distinct
    dates, which ones and in which order being left to the [set]; the
    embedding takes the first five in the order found.  Statements about
    the dates are made up to that choice. *)
Definition find_patterns (page_text : string) : patterns :=
  let dates := found_dates page_text in
  Patterns (take 5 (remove_dups dates))
    (List.filter (fun term => str_in term (lower page_text)) legal_terms_vocabulary)
    (List.filter (fun term => str_in term (lower page_text)) maharashtra_vocabulary).

(** Truth value of [patterns_found]. *)
Definition any_pattern (p : patterns) : bool :=
  nonempty_list (dates p) || nonempty_list (legal_terms p)
  || nonempty_list (maharashtra_terms p).

Definition placeholder_petitioner : string :=
  "Case information available - please check court website directly".
Definition placeholder_respondent : string :=
  "Detailed parsing required - manual verification recommended".
Definition placeholder_note : string :=
  "Partial information extracted from Wardha District Court. Please verify details on court website.".

Definition _alternative_parsing (soup : node) (page_text case_type case_number : string)
    (filing_year : Z) : option case_data :=
  if str_in case_number page_text && str_in (str_of_int filing_year) page_text
     && (500 <? String.length (strip page_text))%nat
  then
    let patterns_found := find_patterns page_text in
    if any_pattern patterns_found then
      Some (CaseData (default_title case_type case_number filing_year)
              "District and Sessions Court, Wardha"
              [placeholder_petitioner] [placeholder_respondent]
              (Some (str_of_int filing_year +:+ "-01-01")) None
              (Some "Case found but requires detailed parsing")
              (Some "Information extraction in progress")
              None [] (Some placeholder_note) (Some patterns_found))
    else None
  else None.
(* ===================================================================== *)
(** * The scraper instance and the outside world *)
(* ===================================================================== *)

Inductive http_method := GET | POST.

(** A call of [session.get] or [session.post]. *)
Record request := Request {
  req_method : http_method;
  req_url : string;
  req_params : gmap string string;
  req_referer : option string;
  req_timeout : Z
}.

Record response := Response {
  status_code : Z;
  content : string;         (* the body as received *)
  text : string;            (* the body decoded *)
  content_type : string;    (* headers.get('content-type', '') *)
  soup : node               (* BeautifulSoup(content, 'html.parser') *)
}.

(** What a call of the session gives: a response, an exception of
    [requests.exceptions.RequestException], or an exception of any other
    kind. *)
Inductive reply :=
| Reply (r : response)
| RequestException (msg : string)
| OtherException (msg : string).

Inductive helper := CheckCaptcha | ExtractCaseInfo | AlternativeParsing.

Inductive event :=
| Sent (r : request)
| Slept (seconds : Z)
| Called (h : helper).

(** The attributes of a [WardhaDistrictCourtScraper] the control flow
    reads, and the history of what it did so far. *)
Record scraper := Scraper {
  search_urls : list string;
  working_url : option string;
  last_raw_response : option string;
  history : list event
}.

(** [WardhaDistrictCourtScraper()] *)
Definition new_scraper : scraper := Scraper search_urls_init None None [].

(** The remote side: its answer to a request may depend on all that
    happened before. *)
Definition remote := list event -> request -> reply.

Inductive failure :=
| NotAccessible
| PageNotFound
| HttpError (code : Z)
| NetworkError (details : string)
| CaptchaRequired (info : captcha_info)
| NoSearchForm
| NotFoundIndicator (found_error_indicator : string)
| NothingExtracted (response_length : nat)
| StrategiesExhausted (strategies_attempted : nat)
| UnexpectedError (details : string).

(** A returned dictionary: case data, or one with an ['error'] key. *)
Inductive outcome :=
| Found (c : case_data)
| Failed (f : failure).

Definition M (A : Type) : Type := scraper -> A * scraper.

Definition ret {A} (a : A) : M A := fun st => (a, st).
Definition bind {A B} (m : M A) (k : A -> M B) : M B :=
  fun st => let '(a, st') := m st in k a st'.

Notation "x <- m ;; k" := (bind m (fun x => k))
  (at level 100, m at next level, right associativity).
Notation "m ;;; k" := (bind m (fun _ => k))
  (at level 100, right associativity).

Definition log (e : event) : M unit :=
  fun st => (tt, Scraper (search_urls st) (working_url st) (last_raw_response st)
                   (history st ++ [e])).

Definition set_working_url (url : string) : M unit :=
  fun st => (tt, Scraper (search_urls st) (Some url) (last_raw_response st) (history st)).

Definition set_last_raw_response (t : string) : M unit :=
  fun st => (tt, Scraper (search_urls st) (working_url st) (Some t) (history st)).

Definition requests (h : list event) : list request :=
  omap (fun e => match e with Sent r => Some r | _ => None end) h.

Definition calls (h : list event) : list helper :=
  omap (fun e => match e with Called f => Some f | _ => None end) h.

Definition valid_indicators : list string :=
  ["case"; "court"; "wardha"; "district"; "ecourts";
   "case status"; "case number"; "filing"; "petitioner";
   "maharashtra"; "judicial"; "search"].

(** [sum(1 for indicator in valid_indicators if indicator in content_lower)] *)
Definition valid_count (r : response) : nat :=
  length (List.filter (fun indicator => str_in indicator (lower (text r))) valid_indicators).

Definition error_indicators : list string :=
  ["no record found"; "record not found"; "invalid case";
   "case not found"; "no data available"; "no records found";
   "invalid input"; "please enter valid"; "not exist";
   "error occurred"; "invalid case number"; "case does not exist";
   "रेकॉर्ड आढळला नाही"; "केस सापडला नाही"; "अवैध केस";
   "कोणताही डेटा उपलब्ध नाही"; "कृपया वैध माहिती टाका"].

Definition methods_to_try : list (http_method * string) :=
  [(POST, ""); (POST, "/case-status-result"); (POST, "/search");
   (GET, ""); (GET, "/case-status")].

Definition set_court_name (v : string) (c : case_data) : case_data :=
  CaseData (case_title c) v (petitioner c) (respondent c)
    (filing_date c) (next_hearing_date c) (status c) (stage c) (judge c) (orders c)
    (note c) (patterns_found c).

Section Scraper.

Variable server : remote.

(** Send a request and wait for what comes back. *)
Definition send (r : request) : M reply :=
  fun st => let '(_, st') := log (Sent r) st in (server (history st) r, st').

(** The loop of [_find_working_url] over the candidates. *)
Fixpoint probe_urls (urls : list string) : M (option string) :=
  match urls with
  | [] => ret None
  | url :: urls' =>
      r <- send (Request GET url ∅ None 15);;
      match r with
      | Reply response =>
          if (status_code response =? 200)
             && (1000 <? String.length (content response))%nat
             && str_in "html" (lower (content_type response))
             && (3 <=? valid_count response)%nat
          then set_working_url url;;; ret (Some url)
          else probe_urls urls'
      | RequestException _ | OtherException _ => probe_urls urls'
      end
  end.

Definition _find_working_url : M (option string) :=
  fun st =>
    if truthy (working_url st) then (working_url st, st)
    else probe_urls (search_urls st) st.

Definition _submit_form (url : string) (form_data : gmap string string)
    (method : http_method) : M (option response) :=
  r <- send (Request method url form_data (Some base_url) 30);;
  match r with
  | Reply response =>
      if status_code response =? 200
      then set_last_raw_response (text response);;; ret (Some response)
      else ret None
  | RequestException _ => ret None
  | OtherException _ =>
      (* not caught here: it reaches the handler around the only call, in
         [_attempt_search_submissions], which moves on to the next
         combination, as for [None] *)
      ret None
  end.

Definition _parse_response (response : response) (case_type case_number : string)
    (filing_year : Z) : M outcome :=
  let soup := soup response in
  let page_text := lower (get_text soup) in
  match find (fun error_msg => str_in error_msg page_text) error_indicators with
  | Some error_msg => ret (Failed (NotFoundIndicator error_msg))
  | None =>
      log (Called ExtractCaseInfo);;;
      let case_data := _extract_case_info soup case_type case_number filing_year in
      if _is_valid_case_data case_data then ret (Found case_data)
      else
        log (Called AlternativeParsing);;;
        match _alternative_parsing soup page_text case_type case_number filing_year with
        | Some alternative_data => ret (Found alternative_data)
        | None => ret (Failed (NothingExtracted (String.length (content response))))
        end
  end.

(** The loop over [methods_to_try] for one strategy.  [Some c]: the
    function returns [c]; [None]: the loop ended or was left by [break]. *)
Fixpoint try_methods (working_url : string) (form_data : gmap string string)
    (case_type case_number : string) (filing_year : Z)
    (methods : list (http_method * string)) : M (option case_data) :=
  match methods with
  | [] => ret None
  | (method, endpoint) :: methods' =>
      response <- _submit_form (working_url +:+ endpoint) form_data method;;
      match response with
      | Some response =>
          if status_code response =? 200 then
            case_data <- _parse_response response case_type case_number filing_year;;
            match case_data with
            | Found c => ret (Some c)
            | Failed _ => ret None
            end
          else try_methods working_url form_data case_type case_number filing_year methods'
      | None => try_methods working_url form_data case_type case_number filing_year methods'
      end
  end.

(** The loop over the strategies; the [finally] clause pauses after each
    one, also when the function returns. *)
Fixpoint try_strategies (working_url : string) (form_data_list : list (gmap string string))
    (case_type case_number : string) (filing_year : Z) : M (option case_data) :=
  match form_data_list with
  | [] => ret None
  | form_data :: rest =>
      r <- try_methods working_url form_data case_type case_number filing_year
             methods_to_try;;
      log (Slept 2);;;
      match r with
      | Some c => ret (Some c)
      | None => try_strategies working_url rest case_type case_number filing_year
      end
  end.

Definition _attempt_search_submissions (working_url : string)
    (form_data_list : list (gmap string string))
    (case_type case_number : string) (filing_year : Z) : M outcome :=
  r <- try_strategies working_url form_data_list case_type case_number filing_year;;
  match r with
  | Some c => ret (Found c)
  | None => ret (Failed (StrategiesExhausted (length form_data_list)))
  end.

Definition fetch_case_data (case_type case_number : string) (filing_year : Z)
    : M outcome :=
  working_url <- _find_working_url;;
  if negb (truthy working_url) then ret (Failed NotAccessible)
  else
    let working_url := default "" working_url in
    r <- send (Request GET working_url ∅ None 20);;
    match r with
    | RequestException e => ret (Failed (NetworkError e))
    | OtherException e =>
        (* the handler at the end of the function *)
        ret (Failed (UnexpectedError e))
    | Reply search_page =>
        (* raise_for_status *)
        if (400 <=? status_code search_page) && (status_code search_page <? 600) then
          if status_code search_page =? 404 then ret (Failed PageNotFound)
          else ret (Failed (HttpError (status_code search_page)))
        else
          let soup := soup search_page in
          log (Called CheckCaptcha);;;
          let captcha_info := _check_captcha soup in
          if has_captcha captcha_info then ret (Failed (CaptchaRequired captcha_info))
          else
            let form_data := _prepare_form_data soup case_type case_number filing_year in
            if negb (nonempty_list form_data) then ret (Failed NoSearchForm)
            else
              case_data <- _attempt_search_submissions working_url form_data
                             case_type case_number filing_year;;
              match case_data with
              | Found c =>
                  ret (Found (set_court_name "District and Sessions Court, Wardha" c))
              | Failed f => ret (Failed f)
              end
    end.

End Scraper.

(* ===================================================================== *)
(** * Vocabulary of the statements *)
(* ===================================================================== *)

(** The instance after some more events. *)
Definition after (st : scraper) (evs : list event) : scraper :=
  Scraper (search_urls st) (working_url st) (last_raw_response st) (history st ++ evs).

(** The instance once [url] has been selected and cached. *)
Definition selected (st : scraper) (url : string) (evs : list event) : scraper :=
  Scraper (search_urls st) (Some url) (last_raw_response st) (history st ++ evs).

(** The request [_find_working_url] sends to a candidate. *)
Definition probe (url : string) : request := Request GET url ∅ None 15.

Definition probes (urls : list string) : list event := (fun url => Sent (probe url)) <$> urls.

(** The request that loads the search page. *)
Definition load (url : string) : request := Request GET url ∅ None 20.

(** The request [_submit_form] sends. *)
Definition submission (method : http_method) (url : string)
    (form_data : gmap string string) : request :=
  Request method url form_data (Some base_url) 30.

(** A reply that makes its candidate acceptable. *)
Definition qualifies (rp : reply) : Prop :=
  ∃ r, rp = Reply r
       ∧ status_code r = 200
       ∧ (1000 < String.length (content r))%nat
       ∧ str_in "html" (lower (content_type r)) = true
       ∧ (3 <= valid_count r)%nat.

(** The instance moved on without calling the obstacle detector. *)
Definition unchecked (st st' : scraper) : Prop :=
  ∃ evs, history st' = history st ++ evs ∧ Called CheckCaptcha ∉ evs.

(** A request that is not a form submission: a probe of a candidate or
    the loading of the search page. *)
Definition plain_request (e : event) : Prop :=
  ∃ r, e = Sent r ∧ req_referer r = None.

(** The indicators with at least one matching element, in the fixed order. *)
Definition matching_indicators (soup : node) : list (selector * string) :=
  List.filter (fun indicator => nonempty_list (select indicator.1 soup)) captcha_indicators.

(* ===================================================================== *)
(** * Sample pages, instances and servers *)
(* ===================================================================== *)

Definition page (contents : list node) : node := Tag "[document]" [] contents.

(** A 200 response carrying the given document. *)
Definition ok_response (doc : node) : response :=
  Response 200 "<html>" "<html>" "text/html; charset=utf-8" doc.

(** A search page with a hidden input called [action]. *)
Definition page_with_hidden_action : node :=
  page [Tag "form" []
          [Tag "input" [("type", "hidden"); ("name", "action"); ("value", "token-1")] []]].

(** A page with a CAPTCHA image and a CAPTCHA input field. *)
Definition page_with_two_indicators : node :=
  page [Tag "img" [("src", "/images/captcha.png")] [];
        Tag "input" [("type", "text"); ("name", "captcha_code")] []].

(** A page with a CAPTCHA image only. *)
Definition page_with_captcha_image : node :=
  page [Tag "form" [] [Tag "img" [("src", "/captcha/image.png")] []]].


(** A text that mentions case 77 of 1999 and the word "case". *)
Definition mention_page_text : string :=
  "case 77 of 1999 " +:+ String.concat "" (replicate 600 "z").



(** Two links to different documents with the same link text. *)
Definition two_pdf_links : node :=
  page [Tag "ul" []
          [Tag "li" [] [Tag "a" [("href", "/orders/1.pdf")] [NavigableString "Order"]];
           Tag "li" [] [Tag "a" [("href", "/orders/2.pdf")] [NavigableString "Order"]]]].

(** The two rows of a result table. *)
Definition party_rows : list node :=
  [Tag "tr" [] [Tag "td" [] [NavigableString "Petitioner"];
                Tag "td" [] [NavigableString "Ramesh Kumar"]];
   Tag "tr" [] [Tag "td" [] [NavigableString "Respondent"];
                Tag "td" [] [NavigableString "State of Maharashtra"]]].

Definition record_response : response :=
  ok_response (page [Tag "table" [] party_rows]).

(** A submission result that shows a CAPTCHA image next to case details. *)
Definition challenge_with_record : response :=
  ok_response
    (page [Tag "img" [("src", "/captcha/image.png")] []; Tag "table" [] party_rows]).

(** The search page itself shows the CAPTCHA image. *)
Definition obstructed_page : response := ok_response page_with_captcha_image.

(** A page that passes the resolver's checks. *)
Definition court_home : response :=
  Response 200 (String.concat "" (replicate 1200 "x"))
    "<html><title>District Court Wardha</title><h1>Case Status : Search</h1></html>"
    "text/HTML; charset=UTF-8"
    (page [Tag "form" [] [Tag "input" [("type", "text"); ("name", "case_no")] []]]).

Definition not_found_404 : response :=
  Response 404 "Not Found" "Not Found" "text/html" (page []).

Definition four_candidates : scraper :=
  Scraper ["https://a.example/"; "https://b.example/"; "https://c.example/";
           "https://d.example/"] None None [].

Definition resolved_instance : scraper :=
  Scraper search_urls_init (Some "https://wardha.dcourts.gov.in/case-status/") None [].

(** The first candidate times out, the second answers 404, the others
    serve the court's page. *)
Definition flaky_server : remote := fun _ r =>
  if String.eqb (req_url r) "https://a.example/" then RequestException "timed out"
  else if String.eqb (req_url r) "https://b.example/" then Reply not_found_404
  else Reply court_home.

(** No candidate can be reached. *)
Definition unreachable : remote := fun _ _ => RequestException "connection timed out".

(** Every request is answered with the obstructed result page. *)
Definition challenging_server : remote := fun _ _ => Reply challenge_with_record.

Definition obstructed_server : remote := fun _ _ => Reply obstructed_page.

(** Plain requests get the court's page, submissions the result table. *)
Definition friendly_server : remote := fun _ r =>
  match req_referer r with
  | Some _ => Reply record_response
  | None => Reply court_home
  end.

(* ===================================================================== *)
(** * [test_connection] and [get_supported_case_types] *)
(* ===================================================================== *)

Inductive capability :=
| Available                  (* 'available' *)
| AvailableWithCaptcha       (* 'available_with_captcha' *)
| FormsNotFound              (* 'forms_not_found' *)
| ErrorTesting (e : string). (* f'error_testing: {str(e)}' *)

Inductive language := Bilingual | English.

(** The keys [test_connection] adds once the search page has been read;
    on an exception only [search_capability] is set. *)
Record inspection := Inspection {
  search_forms_found : option nat;
  captcha_required : option bool;
  reported_captcha_type : option string;
  search_capability : capability;
  page_language : option language
}.

(** The dictionary [test_connection] returns: ['status'] is ['success']
    with the working URL, or ['error'] with the list of tested URLs. *)
Inductive connection :=
| ConnectionSuccess (working_url : string) (i : inspection)
| ConnectionError (tested_urls : list string).

Definition hindi_words : list string := ["न्यायालय"; "केस"; "सुनावणी"; "आदेश"].

Definition inspect_page (soup : node) : inspection :=
  let forms := find_all ["form"] soup in
  let captcha_info := _check_captcha soup in
  let capability :=
    if nonempty_list forms && negb (has_captcha captcha_info) then Available
    else if nonempty_list forms && has_captcha captcha_info then AvailableWithCaptcha
    else FormsNotFound in
  let page_text := lower (get_text soup) in
  Inspection (Some (length forms)) (Some (has_captcha captcha_info))
    (captcha_type captcha_info) capability
    (Some (if any_in hindi_words page_text then Bilingual else English)).

(** Reading the instance. *)
Definition current : M scraper := fun st => (st, st).

Definition test_connection (server : remote) : M connection :=
  working_url <- _find_working_url server;;
  if truthy working_url then
    let url := default "" working_url in
    r <- send server (Request GET url ∅ None 15);;
    match r with
    | Reply response =>
        log (Called CheckCaptcha);;;
        ret (ConnectionSuccess url (inspect_page (soup response)))
    | RequestException e | OtherException e =>
        ret (ConnectionSuccess url (Inspection None None None (ErrorTesting e) None))
    end
  else
    st <- current;;
    ret (ConnectionError (search_urls st)).

(** [.] of a pattern: any character but a newline. *)
Definition any_but_newline : Re.regex :=
  Re.RChars (fun c => negb (Ascii.eqb c "010")) 0 None.

(** [re.compile(r'case.*type|type.*case', re.I)] *)
Definition case_type_name : Re.regex :=
  Re.RAlt (Re.seqs [Re.RLit "case"; any_but_newline; Re.RLit "type"])
          (Re.seqs [Re.RLit "type"; any_but_newline; Re.RLit "case"]).

Definition is_case_type_select (n : node) : bool :=
  is_named ["select"] n &&
  match get "name" n with
  | Some v => bool_decide (is_Some (Re.search true case_type_name v))
  | None => false
  end.

Record case_type_entry := CaseTypeEntry {
  ct_value : string;
  ct_label : string;
  ct_source : string
}.

Definition option_placeholders : list string := ["select"; "choose"; "निवडा"].

(** What one [option] element adds to the list, if anything. *)
Definition case_type_of_option (option : node) : list case_type_entry :=
  let value := strip (default "" (get "value" option)) in
  let text := get_text_strip option in
  if nonempty value && negb (String.eqb value "0")
     && negb (existsb (String.eqb (lower text)) option_placeholders)
  then [CaseTypeEntry value text "website_dropdown"]
  else [].

Definition case_types_of_page (soup : node) : list case_type_entry :=
  take 30
    ((List.filter is_case_type_select (descendants soup) ≫= find_all ["option"])
       ≫= case_type_of_option).

Definition get_supported_case_types (server : remote) : M (list case_type_entry) :=
  working_url <- _find_working_url server;;
  if negb (truthy working_url) then ret []
  else
    r <- send server (Request GET (default "" working_url) ∅ None 15);;
    match r with
    | Reply response => ret (case_types_of_page (soup response))
    | RequestException _ | OtherException _ => ret []
    end.

(* ===================================================================== *)
(** * The search form of the web application ([app.py], [search_case]) *)
(* ===================================================================== *)







(* ===================================================================== *)
(** * More vocabulary and samples *)
(* ===================================================================== *)

Definition pauses (h : list event) : list Z :=
  omap (fun e => match e with Slept n => Some n | _ => None end) h.

(** [YYYY-MM-DD] *)
Definition iso (y m d : Z) : string :=
  zero_pad 4 y +:+ "-" +:+ zero_pad 2 m +:+ "-" +:+ zero_pad 2 d.

(** A record as [_parse_response] can return it for the reply [r]: the
    extracted one when it is meaningful, or the placeholder. *)
Definition parsed_from (r : response) (case_type case_number : string) (filing_year : Z)
    (c : case_data) : Prop :=
  (c = _extract_case_info (soup r) case_type case_number filing_year
   ∧ _is_valid_case_data c = true)
  ∨ _alternative_parsing (soup r) (lower (get_text (soup r)))
      case_type case_number filing_year = Some c.

(** No request ever gets a 200 reply. *)
Definition never_200 (server : remote) : Prop :=
  ∀ h req r, server h req = Reply r -> status_code r ≠ 200.

(** A search page with a case-type dropdown. *)
Definition dropdown_page : node :=
  page [Tag "form" []
          [Tag "select" [("name", "ddlCaseType")]
             [Tag "option" [("value", "0")] [NavigableString "Select"];
              Tag "option" [("value", " CR ")] [NavigableString "Criminal Case"];
              Tag "option" [("value", "")] [NavigableString "Other"];
              Tag "option" [("value", "CS")] [NavigableString " Civil Suit "]];
           Tag "select" [("name", "year")]
             [Tag "option" [("value", "2020")] [NavigableString "2020"]]]].

Definition dropdown_server : remote := fun _ _ =>
  Reply (Response 200 (String.concat "" (replicate 1200 "x"))
           "District Court Wardha case status search" "text/html" dropdown_page).

(** Every request is answered 503. *)
Definition maintenance_server : remote := fun _ _ =>
  Reply (Response 503 "Service Unavailable" "Service Unavailable" "text/html" (page [])).

(** A search page with two hidden inputs of the same name. *)
Definition page_with_repeated_hidden : node :=
  page [Tag "form" []
          [Tag "input" [("type", "hidden"); ("name", "__VIEWSTATE"); ("value", "")] [];
           Tag "input" [("type", "hidden"); ("name", "__VIEWSTATE"); ("value", "abc")] [];
           Tag "input" [("type", "hidden"); ("value", "anonymous")] [];
           Tag "input" [("type", "text"); ("name", "case_no"); ("value", "7")] []]].

(** A result table whose only row is labelled as the next hearing date. *)
Definition hearing_page : node :=
  page [Tag "table" []
          [Tag "tr" [] [Tag "td" [] [NavigableString "Next Hearing Date"];
                        Tag "td" [] [NavigableString "15-03-2023"]];
           Tag "tr" [] [Tag "td" [] [NavigableString "Petitioner"];
                        Tag "td" [] [NavigableString "Ramesh Kumar"]];
           Tag "tr" [] [Tag "td" [] [NavigableString "Applicant"];
                        Tag "td" [] [NavigableString "Ramesh Kumar"]]]].

(** The value a hidden input contributes: [hidden.get('value', '')]. *)
Definition hidden_value (e : node) : string := default "" (get "value" e).

(** Party lists without repetitions and without empty names. *)
Definition parties_ok (c : case_data) : Prop :=
  NoDup (petitioner c) ∧ NoDup (respondent c)
  ∧ ("" ∉ petitioner c) ∧ ("" ∉ respondent c).

(** The entry of [captcha_elements] for a matching indicator. *)
Definition element_of (soup : node) (indicator : selector * string) : captcha_element :=
  CaptchaElement indicator.2 (length (select indicator.1 soup)) indicator.1.

(** The description the PDF-link pass gives to a link. *)
Definition link_description (l : located) : string :=
  let link_text := get_text_strip (self l) in
  if nonempty link_text then link_text else "Wardha District Court Document".

(** An order entry with a description, and a date that is absent or not
    empty. *)
Definition order_ok (o : order) : Prop :=
  description o ≠ "" ∧ (date o = None ∨ truthy (date o) = true).

(** An entry [get_supported_case_types] may list. *)
Definition case_type_entry_ok (e : case_type_entry) : Prop :=
  ct_value e ≠ "" ∧ ct_value e ≠ "0" ∧ strip (ct_value e) = ct_value e
  ∧ (lower (ct_label e) ∉ option_placeholders)
  ∧ ct_source e = "website_dropdown".


(** A page that asks for a security code in words only. *)
Definition page_with_security_code_text : node :=
  page [Tag "form" [] [Tag "label" [] [NavigableString "Enter the Security Code shown below"]]].

(** Links with different texts, and a table row repeating one of them. *)
Definition distinct_links_page : node :=
  page [Tag "a" [("href", "/o/1.pdf")] [NavigableString "Order dated 01-02-2020 in the matter"];
        Tag "a" [("href", "/o/2.pdf")] [];
        Tag "ul" [("class", "orders")]
          [Tag "li" [] [NavigableString "Order dated 01-02-2020 in the matter"];
           Tag "li" [] [NavigableString "Hearing adjourned to 05-06-2022"]]].

(** The instance after a 200 reply [r] to the submission [req]. *)
Definition received (st : scraper) (r : response) (req : request) : scraper :=
  Scraper (search_urls st) (working_url st) (Some (text r)) (history st ++ [Sent req]).

(** The submissions of one parameter set by the given combinations. *)
Definition submissions (url : string) (form_data : gmap string string)
    (methods : list (http_method * string)) : list event :=
  (fun me => Sent (submission me.1 (url +:+ me.2) form_data)) <$> methods.

(** Everything one exhausted run of the executor does. *)
Definition exhaustive_run (url : string) (form_data_list : list (gmap string string))
    : list event :=
  form_data_list ≫= (fun form_data => submissions url form_data methods_to_try ++ [Slept 2]).

(** How often the structured extractor was called. *)
Definition extractions (h : list event) : nat :=
  length (List.filter (fun f => match f with ExtractCaseInfo => true | _ => false end)
            (calls h)).

(** The helper calls [_parse_response] makes when it returns a record. *)
Definition parse_calls (cs : list helper) : Prop :=
  cs = [ExtractCaseInfo] ∨ cs = [ExtractCaseInfo; AlternativeParsing].

(** The outcome of a query once the search page [search_page] has been
    loaded from [url], when [st1] is the instance at that point. *)
Definition after_loading (server : remote) (case_type case_number : string)
    (filing_year : Z) (url : string) (st1 : scraper) (search_page : response)
    (out : outcome) (st' : scraper) : Prop :=
  let status := status_code search_page in
  let st2 := after st1 [Sent (load url)] in
  let info := _check_captcha (soup search_page) in
  if (400 <=? status) && (status <? 600) then
    st' = st2
    ∧ out = Failed (if status =? 404 then PageNotFound else HttpError status)
  else if has_captcha info then
    st' = after st1 [Sent (load url); Called CheckCaptcha]
    ∧ out = Failed (CaptchaRequired info)
  else
    ∃ out0,
      _attempt_search_submissions server url
        (_prepare_form_data (soup search_page) case_type case_number filing_year)
        case_type case_number filing_year
        (after st1 [Sent (load url); Called CheckCaptcha]) = (out0, st')
      ∧ out = match out0 with
              | Found c => Found (set_court_name "District and Sessions Court, Wardha" c)
              | Failed f => Failed f
              end.



(** What the keys of a connection report say about each other. *)
Definition inspection_ok (i : inspection) : Prop :=
  match search_capability i with
  | Available =>
      captcha_required i = Some false
      ∧ ∃ n, search_forms_found i = Some n ∧ (0 < n)%nat
  | AvailableWithCaptcha =>
      captcha_required i = Some true
      ∧ ∃ n, search_forms_found i = Some n ∧ (0 < n)%nat
  | FormsNotFound => search_forms_found i = Some 0%nat
  | ErrorTesting _ =>
      search_forms_found i = None ∧ captcha_required i = None
      ∧ reported_captcha_type i = None ∧ page_language i = None
  end.

(** A run that only looked: probes of candidates and GETs of the same
    shape, no submission, no pause, no reply parsed or kept. *)
Definition only_looked (st st' : scraper) : Prop :=
  search_urls st' = search_urls st
  ∧ last_raw_response st' = last_raw_response st
  ∧ ∃ evs, history st' = history st ++ evs
           ∧ Forall (fun r => ∃ url, r = probe url) (requests evs)
           ∧ (length (requests evs) <= length (search_urls st) + 1)%nat
           ∧ pauses evs = []
           ∧ extractions evs = 0%nat.

(** A page without a form that shows a CAPTCHA image. *)
Definition captcha_only_server : remote := fun _ _ =>
  Reply (Response 200 (String.concat "" (replicate 1200 "x"))
           "District Court Wardha case status search" "text/html"
           (soup challenge_with_record)).

(* ===================================================================== *)
(** * What [search_case] shows for the scraper's result ([app.py]) *)
(* ===================================================================== *)

(** The ['error'] entry of the dictionary returned for a failure. *)
Definition error_text (case_type case_number : string) (filing_year : Z)
    (f : failure) : string :=
  match f with
  | NotAccessible => "Wardha District Court website is currently not accessible"
  | PageNotFound => "Wardha District Court case status page not found"
  | HttpError code => "HTTP Error " +:+ str_of_int code
  | NetworkError _ => "Network error accessing Wardha District Court website"
  | CaptchaRequired _ => "CAPTCHA verification required"
  | NoSearchForm => "Unable to find search form on Wardha District Court website"
  | UnexpectedError _ =>
      "An unexpected error occurred while fetching case data from Wardha District Court"
  | NotFoundIndicator _ | NothingExtracted _ | StrategiesExhausted _ =>
      "Case " +:+ case_type +:+ " " +:+ case_number +:+ "/" +:+ str_of_int filing_year
      +:+ " not found in Wardha District Court"
  end.

Definition fallback_keywords : list string :=
  ["404"; "connect"; "timeout"; "network"; "maintenance"].

(** What the result page is rendered from, with the logged status. *)
Inductive shown :=
| LiveData (c : case_data)          (* 'success' *)
| ScraperError (error : string)     (* 'scraper_error': the error dictionary *)
| DemoData (error : string).        (* 'fallback_success': [create_mock_case_data] *)

(** The handling of the value [fetch_case_data] returned, in [search_case]. *)
Definition scraper_result_shown (case_type case_number : string) (filing_year : Z)
    (case_data : outcome) : shown :=
  match case_data with
  | Found c => LiveData c
  | Failed f =>
      let error := error_text case_type case_number filing_year f in
      if any_in fallback_keywords (lower error) then DemoData error
      else ScraperError error
  end.


(** Plain requests get the court's page, every submission is refused. *)
Definition refusing_server : remote := fun _ r =>
  match req_referer r with
  | Some _ => Reply (Response 503 "Service Unavailable" "Service Unavailable" "text/html"
                       (page []))
  | None => Reply court_home
  end.

(* ===================================================================== *)
(** * The scenarios of the specification, run on the embedding *)
(* ===================================================================== *)

Example scenario_parties :
  let c := _extract_case_info (soup record_response) "CR" "12" 2020 in
  petitioner c = ["Ramesh Kumar"] ∧ respondent c = ["State of Maharashtra"].
Proof. vm_compute. done. Qed.

Example scenario_captcha_image :
  let info := _check_captcha page_with_captcha_image in
  has_captcha info = true ∧ captcha_type info = Some "image".
Proof. vm_compute. done. Qed.

Example scenario_dates :
  _parse_date "15-03-2023" = Some "2023-03-15" ∧ _parse_date "garbage" = Some "garbage".
Proof. vm_compute. done. Qed.

Example scenario_more_dates :
  _parse_date <$> ["March 5, 2021"; "5 mar 2021"; "2023.1.5"; "31-02-2023"; "1/2/29"; "29-02-2023"]
  = [Some "2021-03-05"; Some "2021-03-05"; Some "2023-01-05"; Some "2023-02-31";
     Some "2029-02-01"; Some "2023-02-29"].
Proof. vm_compute. done. Qed.

Example scenario_regex :
  Re.search false Re.date_dmy "Order dated 15-03-2023 (pdf)" = Some "15-03-2023"
  ∧ Re.findall false Re.digit_run "31/12/99 x7" = ["31"; "12"; "99"; "7"]
  ∧ Re.findall false Re.date_dmy_b "a1-2-2020 1-2-20201 01.02.2020" = ["01.02.2020"].
Proof. vm_compute. done. Qed.

Example scenario_fetch :
  let '(out, st) := fetch_case_data friendly_server "CR" "12" 2020 new_scraper in
  (∃ c, out = Found c ∧ petitioner c = ["Ramesh Kumar"]
        ∧ court_name c = "District and Sessions Court, Wardha")
  ∧ working_url st = Some "https://wardha.dcourts.gov.in/case-status-search-by-case-number/"
  ∧ calls (history st) = [CheckCaptcha; ExtractCaseInfo]
  ∧ length (requests (history st)) = 3%nat.
Proof. vm_compute. split; [|done]. eexists. done. Qed.

(* ===================================================================== *)
(** * Facts about the text primitives *)
(* ===================================================================== *)

Section TextFacts.

Lemma app_empty (s : string) : "" +:+ s = s.
Proof. reflexivity. Qed.

Lemma app_String (c : ascii) (a s : string) : String c a +:+ s = String c (a +:+ s).
Proof. reflexivity. Qed.

Lemma startswith_app (p s : string) : startswith p (p +:+ s) = true.
Proof.
  induction p as [|a p IH]; [done|].
  rewrite app_String. simpl. rewrite IH. by rewrite Ascii.eqb_refl.
Qed.

Lemma str_in_here (n h : string) : startswith n h = true -> str_in n h = true.
Proof. intros H. destruct h; simpl in *; by rewrite H. Qed.

Lemma str_in_app (n a b : string) : str_in n (a +:+ n +:+ b) = true.
Proof.
  induction a as [|c a IH].
  - rewrite app_empty. apply str_in_here, startswith_app.
  - rewrite app_String. simpl. rewrite IH. apply orb_true_r.
Qed.

Lemma lower_app (a b : string) : lower (a +:+ b) = lower a +:+ lower b.
Proof.
  induction a as [|c a IH]; [done|].
  rewrite app_String. simpl. by rewrite IH, app_String.
Qed.

Lemma existsb_elem {A} (f : A -> bool) (l : list A) (x : A) :
  x ∈ l -> f x = true -> existsb f l = true.
Proof.
  intros Hin Hf. apply existsb_exists. exists x. split; [|done].
  by apply list_elem_of_In.
Qed.

Lemma find_elem {A} (f : A -> bool) (l : list A) (x : A) :
  x ∈ l -> f x = true -> ∃ y, find f l = Some y ∧ y ∈ l ∧ f y = true.
Proof.
  induction l as [|z l IH]; intros Hin Hf; [by apply elem_of_nil in Hin|].
  simpl. destruct (f z) eqn:Hz.
  - exists z. repeat split; [left|done].
  - apply elem_of_cons in Hin as [->|Hin]; [congruence|].
    destruct (IH Hin Hf) as (y & ? & ? & ?). exists y. repeat split; [done|by right|done].
Qed.

End TextFacts.

(* ===================================================================== *)
(** * The placeholder record of the secondary pass *)
(* ===================================================================== *)

(** What [_alternative_parsing] returns whenever it returns a record. *)
Lemma alternative_parsing_inv soup page_text case_type case_number filing_year c :
  _alternative_parsing soup page_text case_type case_number filing_year = Some c ->
  str_in case_number page_text = true
  ∧ str_in (str_of_int filing_year) page_text = true
  ∧ (500 < String.length (strip page_text))%nat
  ∧ any_pattern (find_patterns page_text) = true
  ∧ c = CaseData (default_title case_type case_number filing_year)
          "District and Sessions Court, Wardha"
          [placeholder_petitioner] [placeholder_respondent]
          (Some (str_of_int filing_year +:+ "-01-01")) None
          (Some "Case found but requires detailed parsing")
          (Some "Information extraction in progress")
          None [] (Some placeholder_note) (Some (find_patterns page_text)).
Proof.
  unfold _alternative_parsing. intros H.
  destruct (str_in case_number page_text) eqn:H1; [|done].
  destruct (str_in (str_of_int filing_year) page_text) eqn:H2; [|done].
  destruct (500 <? String.length (strip page_text))%nat eqn:H3; [|done].
  simpl in H. destruct (any_pattern (find_patterns page_text)) eqn:H4; [|done].
  apply Nat.ltb_lt in H3. by inversion H.
Qed.

(** C10. Whenever the secondary heuristic pass produces its placeholder
    record, the filing date is January 1 of the queried year and the
    petitioner and respondent lists hold the two fixed advisory strings:
    none of the three depends on the page. *)
Theorem C10_placeholder_fields_are_fabricated
    soup page_text case_type case_number filing_year c :
  _alternative_parsing soup page_text case_type case_number filing_year = Some c ->
  filing_date c = Some (str_of_int filing_year +:+ "-01-01")
  ∧ petitioner c = ["Case information available - please check court website directly"]
  ∧ respondent c = ["Detailed parsing required - manual verification recommended"].
Proof.
  intros H. apply alternative_parsing_inv in H as (_ & _ & _ & _ & ->). done.
Qed.

Lemma C10_witness :
  ∃ c, _alternative_parsing (Tag "[document]" [] []) mention_page_text "CR" "77" 1999 = Some c
       ∧ filing_date c = Some "1999-01-01"
       ∧ petitioner c = [placeholder_petitioner]
       ∧ respondent c = [placeholder_respondent].
Proof.
  assert (is_Some (_alternative_parsing (Tag "[document]" [] []) mention_page_text
                     "CR" "77" 1999)) as [c Hc].
  { vm_compute. eexists. reflexivity. }
  exists c. split; [exact Hc|].
  exact (C10_placeholder_fields_are_fabricated _ _ _ _ _ c Hc).
Defined.

(* ===================================================================== *)
(** * Merging the hidden fields into the field-naming schemes *)
(* ===================================================================== *)

Lemma dict_update_lookup (d h : gmap string string) (k : string) :
  dict_update d h !! k = match h !! k with Some v => Some v | None => d !! k end.
Proof.
  unfold dict_update. rewrite lookup_union.
  destruct (h !! k), (d !! k); done.
Qed.

Lemma prepare_form_data_length soup case_type case_number filing_year :
  length (_prepare_form_data soup case_type case_number filing_year) = 7%nat.
Proof. unfold _prepare_form_data. by rewrite length_fmap. Qed.

(** C2, as stated, fails: on a key present both in a scheme and among the
    hidden fields, the scheme's own value is lost.  Strategy 6 sends
    [action=search]; with a hidden input of that name on the page the
    merged parameter set carries the hidden value. *)
Lemma C2_scheme_value_is_overridden :
  form_variations "CR" "12" 2020 !! 5%nat ≫= (.!! "action") = Some "search"
  ∧ _extract_hidden_fields page_with_hidden_action !! "action" = Some "token-1"
  ∧ _prepare_form_data page_with_hidden_action "CR" "12" 2020 !! 5%nat ≫= (.!! "action")
    = Some "token-1".
Proof. vm_compute. done. Qed.

(** C2, amended. The hidden fields are merged into every one of the seven
    schemes, in order; for a key present in both, the hidden-field value
    takes precedence, and the scheme's value is kept only for keys absent
    from the hidden fields. *)
Theorem C2_hidden_fields_take_precedence
    soup case_type case_number filing_year (i : nat) (variation : gmap string string) :
  form_variations case_type case_number filing_year !! i = Some variation ->
  ∃ merged,
    _prepare_form_data soup case_type case_number filing_year !! i = Some merged
    ∧ ∀ k, merged !! k =
           match _extract_hidden_fields soup !! k with
           | Some v => Some v
           | None => variation !! k
           end.
Proof.
  intros Hv. exists (dict_update variation (_extract_hidden_fields soup)). split.
  - unfold _prepare_form_data. by rewrite list_lookup_fmap, Hv.
  - intros k. apply dict_update_lookup.
Qed.

Lemma C2_witness :
  ∃ merged,
    _prepare_form_data page_with_hidden_action "CR" "12" 2020 !! 5%nat = Some merged
    ∧ merged !! "action" = Some "token-1" ∧ merged !! "number" = Some "12".
Proof.
  destruct (C2_hidden_fields_take_precedence page_with_hidden_action "CR" "12" 2020 5
              (list_to_map [("type", "CR"); ("number", "12");
                            ("year", str_of_int 2020); ("action", "search")])
              eq_refl) as (merged & Hm & Hk).
  exists merged. split; [exact Hm|]. split.
  - rewrite (Hk "action"). vm_compute. reflexivity.
  - rewrite (Hk "number"). vm_compute. reflexivity.
Defined.

(* ===================================================================== *)
(** * The kind the obstacle detector reports *)
(* ===================================================================== *)

Lemma captcha_loop_type soup (l : list (selector * string)) (info : captcha_info) :
  captcha_type (foldl (captcha_step soup) info l) =
    match last (List.filter (fun indicator => nonempty_list (select indicator.1 soup)) l) with
    | Some indicator => Some indicator.2
    | None => captcha_type info
    end.
Proof.
  revert info. induction l as [|ind l IH]; intros info; [done|].
  cbn [foldl List.filter]. rewrite IH. unfold captcha_step.
  destruct (select ind.1 soup) as [|e es] eqn:Hsel; cbn [nonempty_list]; [done|].
  destruct (List.filter _ l) as [|x xs] eqn:Hf; [done|].
  rewrite (last_cons ind). by destruct (last (x :: xs)).
Qed.

Lemma captcha_loop_flag soup (l : list (selector * string)) (info : captcha_info) :
  has_captcha (foldl (captcha_step soup) info l) =
    has_captcha info
    || nonempty_list (List.filter (fun indicator => nonempty_list (select indicator.1 soup)) l).
Proof.
  revert info. induction l as [|ind l IH]; intros info; [by rewrite orb_false_r|].
  cbn [foldl List.filter]. rewrite IH. unfold captcha_step.
  destruct (select ind.1 soup) as [|e es]; cbn [nonempty_list has_captcha]; [done|].
  by rewrite orb_true_r.
Qed.

(** C8, as stated, fails: with the image and the input indicator both
    matching, the first matching indicator is [image] but the reported
    kind is [input]. *)
Lemma C8_reports_not_the_first_kind :
  head (matching_indicators page_with_two_indicators)
    = Some (AttrContains "img" "src" "captcha", "image")
  ∧ captcha_type (_check_captcha page_with_two_indicators) = Some "input".
Proof. vm_compute. done. Qed.

(** C8, amended. When structural indicators match, the detector reports
    the kind of the last matching one in the fixed order of indicators;
    the text-based kind is reported only when no structural indicator
    matched at all (and one of the marker words occurs in the page text). *)
Theorem C8_reports_last_structural_kind (soup : node) :
  captcha_type (_check_captcha soup) =
    match last (matching_indicators soup) with
    | Some indicator => Some indicator.2
    | None =>
        if any_in captcha_words (lower (get_text soup)) then Some "text_based" else None
    end
  ∧ has_captcha (_check_captcha soup) =
      nonempty_list (matching_indicators soup)
      || any_in captcha_words (lower (get_text soup)).
Proof.
  unfold _check_captcha, matching_indicators.
  pose proof (captcha_loop_type soup captcha_indicators (CaptchaInfo false None [])) as Ht.
  pose proof (captcha_loop_flag soup captcha_indicators (CaptchaInfo false None [])) as Hf.
  simpl captcha_type in Ht. simpl has_captcha in Hf.
  destruct (any_in captcha_words (lower (get_text soup))); simpl.
  - rewrite Ht. split; [|by rewrite orb_true_r].
    by destruct (last _).
  - rewrite Ht, Hf. by rewrite orb_false_r.
Qed.

(* ===================================================================== *)
(** * Classifying and parsing a response *)
(* ===================================================================== *)

Lemma after_nil st : after st [] = st.
Proof. destruct st. unfold after. simpl. by rewrite app_nil_r. Qed.

Lemma after_after st evs evs' : after (after st evs) evs' = after st (evs ++ evs').
Proof. unfold after. simpl. by rewrite app_assoc. Qed.

Lemma log_after e st : log e st = (tt, after st [e]).
Proof. done. Qed.

(** [_parse_response], branch by branch. *)
Lemma parse_response_cases (r : response) case_type case_number filing_year st :
  _parse_response r case_type case_number filing_year st =
    let page_text := lower (get_text (soup r)) in
    match find (fun error_msg => str_in error_msg page_text) error_indicators with
    | Some error_msg => (Failed (NotFoundIndicator error_msg), st)
    | None =>
        let extracted := _extract_case_info (soup r) case_type case_number filing_year in
        if _is_valid_case_data extracted
        then (Found extracted, after st [Called ExtractCaseInfo])
        else
          (match _alternative_parsing (soup r) page_text case_type case_number filing_year with
           | Some c => Found c
           | None => Failed (NothingExtracted (String.length (content r)))
           end,
           after st [Called ExtractCaseInfo; Called AlternativeParsing])
    end.
Proof.
  unfold _parse_response. cbv zeta.
  destruct (find _ error_indicators); [done|].
  unfold bind. rewrite log_after.
  destruct (_is_valid_case_data _); [done|].
  rewrite log_after, after_after. simpl app.
  by destruct (_alternative_parsing _ _ _ _ _).
Qed.

Lemma not_found_phrase_is_found (r : response) (phrase pre s post : string) :
  phrase ∈ error_indicators ->
  lower s = phrase ->
  get_text (soup r) = pre +:+ s +:+ post ->
  ∃ indicator,
    find (fun error_msg => str_in error_msg (lower (get_text (soup r)))) error_indicators
    = Some indicator
    ∧ indicator ∈ error_indicators.
Proof.
  intros Hin Hlow Htext. rewrite Htext, !lower_app, Hlow.
  destruct (find_elem (fun e => str_in e (lower pre +:+ phrase +:+ lower post))
              error_indicators phrase Hin (str_in_app _ _ _)) as (y & Hy & Hyin & _).
  by exists y.
Qed.



Lemma placeholder_is_valid soup page_text case_type case_number filing_year c :
  _alternative_parsing soup page_text case_type case_number filing_year = Some c ->
  _is_valid_case_data c = true.
Proof. intros H. apply alternative_parsing_inv in H as (_ & _ & _ & _ & ->). done. Qed.







(* ===================================================================== *)
(** * The date normalizer *)
(* ===================================================================== *)



Lemma nonempty_false (s : string) : nonempty s = false <-> s = "".
Proof. destruct s; simpl; split; congruence. Qed.

Lemma strip_empty : strip "" = "".
Proof. reflexivity. Qed.

(** After the guard at its head, [_parse_date] works on the stripped
    string. *)
Lemma parse_date_stripped (s : string) :
  strip s ≠ "" ->
  _parse_date s =
    match try_formats date_formats (strip s) with
    | Some r => Some r
    | None =>
        match from_digit_runs (strip s) with
        | Some r => Some r
        | None => Some (strip s)
        end
    end.
Proof.
  intros Hne. unfold _parse_date.
  destruct (nonempty s) eqn:Hs.
  - destruct (nonempty (strip s)) eqn:Ht; [done|].
    by apply nonempty_false in Ht.
  - apply nonempty_false in Hs. subst s. by rewrite strip_empty in Hne.
Qed.





(* ===================================================================== *)
(** * The order list *)
(* ===================================================================== *)

Lemma has_description_elem (d : string) (os : list order) :
  has_description d os = true <-> d ∈ description <$> os.
Proof.
  unfold has_description. rewrite existsb_exists, list_elem_of_fmap. split.
  - intros (o & Hin & Heq). apply String.eqb_eq in Heq.
    exists o. split; [done|]. by apply list_elem_of_In.
  - intros (o & -> & Hin). exists o. split; [by apply list_elem_of_In|].
    apply String.eqb_refl.
Qed.

Lemma NoDup_descriptions_snoc (os : list order) (o : order) :
  NoDup (description <$> os) ->
  has_description (description o) os = false ->
  NoDup (description <$> (os ++ [o])).
Proof.
  intros Hnd Hnew. rewrite fmap_app. apply NoDup_app. split; [done|]. split.
  - intros d Hd Hd'. apply list_elem_of_singleton in Hd'. subst d.
    apply has_description_elem in Hd. congruence.
  - apply NoDup_singleton.
Qed.

(** The table-row pass and the container pass never add a description
    that is already in the list. *)
Lemma table_row_step_NoDup os row :
  NoDup (description <$> os) -> NoDup (description <$> table_row_step os row).
Proof.
  intros Hnd. unfold table_row_step.
  destruct (find_all ["td"; "th"] row) as [|c0 [|c1 cells]]; [done..|].
  destruct (any_in _ (lower (get_text_strip c0))); [|done].
  set (order_text := String.concat " " _).
  destruct ((20 <? String.length order_text)%nat
            && negb (has_description order_text os) && _) eqn:Hc; [|done].
  apply andb_true_iff in Hc as [Hc _]. apply andb_true_iff in Hc as [_ Hc].
  apply negb_true_iff in Hc. by apply NoDup_descriptions_snoc.
Qed.

Lemma container_item_step_NoDup os item :
  NoDup (description <$> os) -> NoDup (description <$> container_item_step os item).
Proof.
  intros Hnd. unfold container_item_step.
  destruct (_ && _); [|done]. cbv zeta.
  destruct (negb (has_description _ os)) eqn:Hd; [|done].
  apply negb_true_iff in Hd. by apply NoDup_descriptions_snoc.
Qed.

Lemma foldl_NoDup {A} (step : list order -> A -> list order) (xs : list A) os :
  (∀ os x, NoDup (description <$> os) -> NoDup (description <$> step os x)) ->
  NoDup (description <$> os) -> NoDup (description <$> foldl step os xs).
Proof.
  intros Hstep. revert os. induction xs as [|x xs IH]; intros os Hnd; [done|].
  simpl. apply IH. by apply Hstep.
Qed.


(** Repeated descriptions can only come from the PDF-link pass. *)
Lemma extract_orders_NoDup_after_pdf_pass (soup : node) :
  NoDup (description <$> foldl pdf_link_step [] (pdf_links soup)) ->
  NoDup (description <$> _extract_orders soup).
Proof.
  intros Hnd. unfold _extract_orders. rewrite fmap_take.
  eapply sublist_NoDup; [|apply sublist_take].
  apply foldl_NoDup; [apply container_item_step_NoDup|].
  apply foldl_NoDup; [apply table_row_step_NoDup|]. done.
Qed.

(** C3, at a page where the code departs from it: the PDF-link pass adds
    an entry for every link without looking at the descriptions already
    collected, so two links with the same text give two entries with the
    same description. *)
Theorem C3_pdf_links_repeat_a_description :
  _extract_orders two_pdf_links =
    [Order "Order" (Some (UrlJoin base_url "/orders/1.pdf")) None "Wardha District Court";
     Order "Order" (Some (UrlJoin base_url "/orders/2.pdf")) None "Wardha District Court"]
  ∧ ¬ NoDup (description <$> _extract_orders two_pdf_links).
Proof.
  assert (_extract_orders two_pdf_links =
    [Order "Order" (Some (UrlJoin base_url "/orders/1.pdf")) None "Wardha District Court";
     Order "Order" (Some (UrlJoin base_url "/orders/2.pdf")) None "Wardha District Court"])
    as Heq by (vm_compute; reflexivity).
  split; [exact Heq|]. rewrite Heq. simpl. intros Hnd.
  apply NoDup_cons in Hnd as [Hnotin _]. apply Hnotin. left.
Qed.

(* ===================================================================== *)
(** * Resolving the endpoint *)
(* ===================================================================== *)

Lemma classic_qualifies (rp : reply) : qualifies rp ∨ ¬ qualifies rp.
Proof.
  destruct rp as [r|msg|msg]; [|right; by intros (r & ? & _)..].
  destruct (decide (status_code r = 200)) as [Hs|Hs];
    [|right; intros (r' & [= <-] & ? & _); done].
  destruct (decide (1000 < String.length (content r))%nat) as [Hl|Hl];
    [|right; intros (r' & [= <-] & _ & ? & _); done].
  destruct (str_in "html" (lower (content_type r))) eqn:Hh;
    [|right; intros (r' & [= <-] & _ & _ & ? & _); congruence].
  destruct (decide (3 <= valid_count r)%nat) as [Hv|Hv];
    [|right; intros (r' & [= <-] & _ & _ & _ & ?); done].
  left. by exists r.
Qed.

Section Resolver.

Variable server : remote.

Lemma send_after (r : request) (st : scraper) :
  send server r st = (server (history st) r, after st [Sent r]).
Proof. done. Qed.

(** One turn of the loop: a qualifying reply selects the candidate, any
    other reply (an error included) moves on to the next one. *)
Lemma probe_urls_qualifies url urls st :
  qualifies (server (history st) (probe url)) ->
  probe_urls server (url :: urls) st = (Some url, selected st url [Sent (probe url)]).
Proof.
  intros (r & Hr & Hs & Hl & Hh & Hv).
  cbn [probe_urls]. unfold bind. fold (probe url). rewrite send_after, Hr.
  apply Z.eqb_eq in Hs. apply Nat.ltb_lt in Hl. apply Nat.leb_le in Hv.
  by rewrite Hs, Hl, Hh, Hv.
Qed.

Lemma probe_urls_not_qualifies url urls st :
  ¬ qualifies (server (history st) (probe url)) ->
  probe_urls server (url :: urls) st = probe_urls server urls (after st [Sent (probe url)]).
Proof.
  intros Hn.
  cbn [probe_urls]. unfold bind. fold (probe url). rewrite send_after.
  destruct (server (history st) (probe url)) as [r|msg|msg] eqn:Hr; [|done..].
  destruct (_ && _ && _ && _) eqn:Hc; [|done].
  exfalso. apply Hn. exists r.
  rewrite !andb_true_iff in Hc. destruct Hc as [[[Hs Hl] Hh] Hv].
  apply Z.eqb_eq in Hs. apply Nat.ltb_lt in Hl. apply Nat.leb_le in Hv. done.
Qed.

Lemma probe_urls_selects pre u post st :
  (∀ (i : nat) v, pre !! i = Some v ->
      ¬ qualifies (server (history st ++ probes (take i pre)) (probe v))) ->
  qualifies (server (history st ++ probes pre) (probe u)) ->
  probe_urls server (pre ++ u :: post) st = (Some u, selected st u (probes (pre ++ [u]))).
Proof.
  revert st. induction pre as [|v pre IH]; intros st Hpre Hu.
  - simpl in *. rewrite app_nil_r in Hu. by apply probe_urls_qualifies.
  - rewrite <- app_comm_cons, probe_urls_not_qualifies.
    2:{ specialize (Hpre 0%nat v eq_refl). simpl in Hpre. by rewrite app_nil_r in Hpre. }
    rewrite IH.
    + unfold selected, after. simpl. by rewrite <- app_assoc.
    + intros i w Hi. specialize (Hpre (S i) w Hi).
      simpl in *. by rewrite <- app_assoc.
    + simpl in *. by rewrite <- app_assoc.
Qed.

Lemma probe_urls_exhausts urls st :
  (∀ (i : nat) v, urls !! i = Some v ->
      ¬ qualifies (server (history st ++ probes (take i urls)) (probe v))) ->
  probe_urls server urls st = (None, after st (probes urls)).
Proof.
  revert st. induction urls as [|v urls IH]; intros st Hall.
  - simpl. by rewrite after_nil.
  - rewrite probe_urls_not_qualifies.
    2:{ specialize (Hall 0%nat v eq_refl). simpl in Hall. by rewrite app_nil_r in Hall. }
    rewrite IH.
    + by rewrite after_after.
    + intros i w Hi. specialize (Hall (S i) w Hi).
      simpl in *. by rewrite <- app_assoc.
Qed.

(** Whatever the loop returns, it has probed a prefix of the candidates,
    and a returned URL is one of them and is now cached. *)
Lemma probe_urls_result urls st res st' :
  probe_urls server urls st = (res, st') ->
  search_urls st' = search_urls st
  ∧ last_raw_response st' = last_raw_response st
  ∧ (∃ k : nat, history st' = history st ++ probes (take k urls))
  ∧ match res with
    | Some u => u ∈ urls ∧ working_url st' = Some u
    | None => working_url st' = working_url st
    end.
Proof.
  revert st. induction urls as [|v urls IH]; intros st H.
  - simpl in H. injection H as <- <-.
    split; [done|]. split; [done|]. split; [|done].
    exists 0%nat. simpl. by rewrite app_nil_r.
  - destruct (classic_qualifies (server (history st) (probe v))) as [Hq|Hq].
    + rewrite (probe_urls_qualifies v urls st Hq) in H. injection H as <- <-.
      split; [done|]. split; [done|]. split; [by exists 1%nat|].
      split; [left|done].
    + rewrite (probe_urls_not_qualifies v urls st Hq) in H.
      destruct (IH _ H) as (Hs & Hl & (k & Hk) & Hres).
      split; [done|]. split; [done|]. split.
      * exists (S k). rewrite Hk. simpl. by rewrite <- app_assoc.
      * destruct res as [u|]; [|done]. destruct Hres. split; [by right|done].
Qed.

End Resolver.

Lemma probe_urls_some_inv (server : remote) urls st u st' :
  probe_urls server urls st = (Some u, st') ->
  ∃ pre post,
    urls = pre ++ u :: post
    ∧ (∀ (i : nat) v, pre !! i = Some v ->
          ¬ qualifies (server (history st ++ probes (take i pre)) (probe v)))
    ∧ qualifies (server (history st ++ probes pre) (probe u)).
Proof.
  revert st. induction urls as [|v urls IH]; intros st H; [done|].
  destruct (classic_qualifies (server (history st) (probe v))) as [Hq|Hq].
  - rewrite (probe_urls_qualifies server v urls st Hq) in H. injection H as <- _.
    exists [], urls. split; [done|]. split; [done|].
    simpl. by rewrite app_nil_r.
  - rewrite (probe_urls_not_qualifies server v urls st Hq) in H.
    destruct (IH _ H) as (pre & post & -> & Hpre & Hu).
    exists (v :: pre), post. split; [done|]. split.
    + intros [|i] w Hi; simpl in *.
      * injection Hi as <-. by rewrite app_nil_r.
      * specialize (Hpre i w Hi). by rewrite <- app_assoc in Hpre.
    + simpl in *. by rewrite <- app_assoc in Hu.
Qed.

(** C6. On an instance with no cached URL, the resolver selects a
    candidate if and only if its reply has status 200, a body longer than
    1000 bytes, [html] in the declared content type and at least three of
    the vocabulary terms in the lower-cased text, and no earlier candidate
    did: the candidates before it are probed in order, the ones after it
    are not probed, and the selected URL is cached.  If no candidate
    qualifies (a network error counts as not qualifying), every candidate
    is probed once and the resolver returns nothing. *)
Theorem C6_first_qualifying_candidate_is_selected (server : remote) (st : scraper) :
  truthy (working_url st) = false ->
  (∀ pre u post,
      search_urls st = pre ++ u :: post ->
      (∀ (i : nat) v, pre !! i = Some v ->
          ¬ qualifies (server (history st ++ probes (take i pre)) (probe v))) ->
      qualifies (server (history st ++ probes pre) (probe u)) ->
      _find_working_url server st = (Some u, selected st u (probes (pre ++ [u]))))
  ∧ (∀ u st', _find_working_url server st = (Some u, st') ->
       ∃ pre post,
         search_urls st = pre ++ u :: post
         ∧ (∀ (i : nat) v, pre !! i = Some v ->
               ¬ qualifies (server (history st ++ probes (take i pre)) (probe v)))
         ∧ qualifies (server (history st ++ probes pre) (probe u)))
  ∧ ((∀ (i : nat) v, search_urls st !! i = Some v ->
         ¬ qualifies (server (history st ++ probes (take i (search_urls st))) (probe v))) ->
     _find_working_url server st = (None, after st (probes (search_urls st))))
  ∧ (∀ h r msg, server h r = RequestException msg -> ¬ qualifies (server h r)).
Proof.
  intros Hcache. unfold _find_working_url. rewrite Hcache.
  split; [|split; [|split]].
  - intros pre u post -> Hpre Hu. by apply probe_urls_selects.
  - intros u st' H. by apply probe_urls_some_inv in H.
  - apply probe_urls_exhausts.
  - intros h r msg -> (r' & Hr & _). discriminate Hr.
Qed.

Lemma court_home_qualifies : qualifies (Reply court_home).
Proof.
  exists court_home. split; [done|]. split; [done|].
  split; [apply Nat.ltb_lt; vm_compute; reflexivity|].
  split; [vm_compute; reflexivity|].
  apply Nat.leb_le. vm_compute. reflexivity.
Qed.

Lemma C6_witness :
  _find_working_url flaky_server four_candidates
  = (Some "https://c.example/",
     selected four_candidates "https://c.example/"
       (probes ["https://a.example/"; "https://b.example/"; "https://c.example/"])).
Proof.
  destruct (C6_first_qualifying_candidate_is_selected flaky_server four_candidates eq_refl)
    as (Hsel & _).
  apply (Hsel ["https://a.example/"; "https://b.example/"] "https://c.example/"
           ["https://d.example/"]).
  - reflexivity.
  - intros [|[|i]] v Hi; [| |done]; injection Hi as <-;
      intros (r & Hr & Hs & _).
    + discriminate Hr.
    + injection Hr as <-. discriminate Hs.
  - exact court_home_qualifies.
Defined.

(** C7, as stated, fails: when no candidate qualifies nothing is cached,
    and a second call probes every candidate again. *)
Lemma C7_unresolved_is_probed_again :
  let '(r1, st1) := _find_working_url unreachable new_scraper in
  let '(r2, st2) := _find_working_url unreachable st1 in
  r1 = None ∧ r2 = None
  ∧ requests (history st1) = probe <$> search_urls_init
  ∧ requests (history st2) = probe <$> (search_urls_init ++ search_urls_init).
Proof. vm_compute. done. Qed.

(** C7, amended. Once a call has resolved a URL, the next call on the same
    instance returns the identical URL without probing anything; the
    first call probed a prefix of the candidate list, each of its
    candidates once.  (When a call resolves nothing, nothing is cached and
    the next call probes again.) *)
Theorem C7_resolved_url_is_reused (server : remote) (st st1 : scraper) (u : string) :
  "" ∉ search_urls st ->
  _find_working_url server st = (Some u, st1) ->
  _find_working_url server st1 = (Some u, st1)
  ∧ ∃ k : nat, history st1 = history st ++ probes (take k (search_urls st)).
Proof.
  intros Hne H. unfold _find_working_url in H.
  destruct (truthy (working_url st)) eqn:Hc.
  - injection H as Hu <-. split.
    + unfold _find_working_url. by rewrite Hc, Hu.
    + exists 0%nat. simpl. by rewrite app_nil_r.
  - apply probe_urls_result in H as (_ & _ & Hk & Hin & Hw). split; [|done].
    unfold _find_working_url. rewrite Hw. simpl.
    destruct u; [done|done].
Qed.

Lemma C7_witness :
  _find_working_url flaky_server
    (selected four_candidates "https://c.example/"
       (probes ["https://a.example/"; "https://b.example/"; "https://c.example/"]))
  = (Some "https://c.example/",
     selected four_candidates "https://c.example/"
       (probes ["https://a.example/"; "https://b.example/"; "https://c.example/"])).
Proof.
  apply (C7_resolved_url_is_reused flaky_server four_candidates _ "https://c.example/").
  - vm_compute. intros H. repeat (apply elem_of_cons in H as [H|H]; [discriminate H|]).
    by apply elem_of_nil in H.
  - vm_compute. reflexivity.
Defined.

(* ===================================================================== *)
(** * Submissions and the obstacle detector *)
(* ===================================================================== *)

Lemma unchecked_refl st : unchecked st st.
Proof. exists []. split; [by rewrite app_nil_r|]. apply not_elem_of_nil. Qed.

Lemma unchecked_trans st1 st2 st3 :
  unchecked st1 st2 -> unchecked st2 st3 -> unchecked st1 st3.
Proof.
  intros (e1 & H1 & N1) (e2 & H2 & N2). exists (e1 ++ e2). split.
  - by rewrite H2, H1, app_assoc.
  - rewrite elem_of_app. tauto.
Qed.

Lemma unchecked_after st evs : Called CheckCaptcha ∉ evs -> unchecked st (after st evs).
Proof. intros H. by exists evs. Qed.

(** Closes [Called CheckCaptcha ∉ [e]] for an event [e] of another kind. *)
Ltac other_event := by intros [=]%list_elem_of_singleton.

Section Submissions.

Variable server : remote.

Lemma submit_form_unchecked url form_data method st res st' :
  _submit_form server url form_data method st = (res, st') -> unchecked st st'.
Proof.
  unfold _submit_form, bind. rewrite send_after.
  destruct (server _ _) as [r|msg|msg].
  - destruct (status_code r =? 200); intros [= <- <-].
    + exists [Sent (Request method url form_data (Some base_url) 30)].
      split; [done|]. other_event.
    + apply unchecked_after. other_event.
  - intros [= <- <-]. apply unchecked_after. other_event.
  - intros [= <- <-]. apply unchecked_after. other_event.
Qed.

Lemma parse_response_unchecked r case_type case_number filing_year st res st' :
  _parse_response r case_type case_number filing_year st = (res, st') -> unchecked st st'.
Proof.
  rewrite parse_response_cases. cbv zeta.
  destruct (find _ error_indicators).
  - intros [= <- <-]. apply unchecked_refl.
  - destruct (_is_valid_case_data _); intros [= <- <-]; apply unchecked_after.
    + other_event.
    + intros [H|H]%elem_of_cons; [done|]. by apply list_elem_of_singleton in H.
Qed.

Lemma try_methods_unchecked working_url form_data case_type case_number filing_year
    methods st res st' :
  try_methods server working_url form_data case_type case_number filing_year methods st
    = (res, st') ->
  unchecked st st'.
Proof.
  revert st. induction methods as [|[method endpoint] methods IH]; intros st.
  - intros [= <- <-]. apply unchecked_refl.
  - cbn [try_methods]. unfold bind at 1.
    destruct (_submit_form _ _ _ _ st) as [resp st1] eqn:Hsub.
    apply submit_form_unchecked in Hsub.
    destruct resp as [resp|].
    + destruct (status_code resp =? 200).
      * unfold bind.
        destruct (_parse_response _ _ _ _ st1) as [out st2] eqn:Hparse.
        apply parse_response_unchecked in Hparse.
        destruct out; intros [= <- <-]; by eapply unchecked_trans.
      * intros H. eapply unchecked_trans; [done|]. by eapply IH.
    + intros H. eapply unchecked_trans; [done|]. by eapply IH.
Qed.

Lemma try_strategies_unchecked working_url form_data_list case_type case_number
    filing_year st res st' :
  try_strategies server working_url form_data_list case_type case_number filing_year st
    = (res, st') ->
  unchecked st st'.
Proof.
  revert st. induction form_data_list as [|form_data rest IH]; intros st.
  - intros [= <- <-]. apply unchecked_refl.
  - cbn [try_strategies]. unfold bind at 1.
    destruct (try_methods _ _ _ _ _ _ _ st) as [r st1] eqn:Hm.
    apply try_methods_unchecked in Hm.
    unfold bind. rewrite log_after.
    assert (unchecked st (after st1 [Slept 2])) as Hs.
    { eapply unchecked_trans; [done|]. apply unchecked_after.
      other_event. }
    destruct r as [c|].
    + by intros [= <- <-].
    + intros H. eapply unchecked_trans; [done|]. by eapply IH.
Qed.

(** A not-found reply ends the strategy it answers: the remaining
    method and path combinations of that strategy are skipped, and the
    extractor is not called on the reply. *)
Lemma not_found_reply_ends_strategy url form_data case_type case_number
    filing_year method endpoint methods st r phrase pre s post :
  server (history st) (submission method (url +:+ endpoint) form_data) = Reply r ->
  status_code r = 200 ->
  phrase ∈ error_indicators ->
  lower s = phrase ->
  get_text (soup r) = pre +:+ s +:+ post ->
  try_methods server url form_data case_type case_number filing_year
    ((method, endpoint) :: methods) st
  = (None,
     Scraper (search_urls st) (working_url st) (Some (text r))
       (history st ++ [Sent (submission method (url +:+ endpoint) form_data)])).
Proof.
  intros Hreply Hstatus Hin Hlow Htext.
  cbn [try_methods]. unfold bind at 1. unfold _submit_form, bind at 1.
  fold (submission method (url +:+ endpoint) form_data).
  rewrite send_after, Hreply, Hstatus. simpl.
  unfold bind. rewrite Hstatus. simpl.
  destruct (not_found_phrase_is_found r phrase pre s post Hin Hlow Htext) as (y & Hy & _).
  rewrite parse_response_cases. cbv zeta. by rewrite Hy.
Qed.

Lemma attempt_search_submissions_unchecked working_url form_data_list case_type
    case_number filing_year st out st' :
  _attempt_search_submissions server working_url form_data_list case_type case_number
    filing_year st = (out, st') ->
  unchecked st st'.
Proof.
  unfold _attempt_search_submissions, bind.
  destruct (try_strategies _ _ _ _ _ _ st) as [r st1] eqn:Hs.
  apply try_strategies_unchecked in Hs.
  by destruct r; intros [= <- <-].
Qed.

End Submissions.

(** C1, as stated, fails: the 200 response to the first submission holds a
    CAPTCHA image, yet the executor does not run the obstacle detector on
    it and returns the record extracted from that response. *)
Lemma C1_obstructed_response_is_extracted :
  let '(out, st') :=
    _attempt_search_submissions challenging_server
      "https://wardha.dcourts.gov.in/case-status/"
      (form_variations "CR" "12" 2020) "CR" "12" 2020 resolved_instance in
  has_captcha (_check_captcha (soup challenge_with_record)) = true
  ∧ captcha_type (_check_captcha (soup challenge_with_record)) = Some "image"
  ∧ (∃ c, out = Found c ∧ petitioner c = ["Ramesh Kumar"]
          ∧ respondent c = ["State of Maharashtra"])
  ∧ calls (history st') = [ExtractCaseInfo]
  ∧ length (requests (history st')) = 1%nat.
Proof. vm_compute. repeat split. eexists. repeat split. Qed.

Lemma find_working_url_history (server : remote) st res st1 :
  _find_working_url server st = (res, st1) ->
  ∃ k : nat, history st1 = history st ++ probes (take k (search_urls st)).
Proof.
  unfold _find_working_url. destruct (truthy (working_url st)).
  - intros [= _ <-]. exists 0%nat. simpl. by rewrite app_nil_r.
  - intros H. by apply probe_urls_result in H as (_ & _ & Hk & _).
Qed.

Lemma probes_plain (urls : list string) : Forall plain_request (probes urls).
Proof.
  unfold probes. apply Forall_fmap, Forall_forall. intros url _.
  by exists (probe url).
Qed.

(** What [fetch_case_data] does, in order: plain requests, then at most
    one call of the obstacle detector, then whatever the submissions do,
    which never includes that call. *)
Lemma fetch_case_data_history (server : remote) case_type case_number filing_year
    st out st' :
  fetch_case_data server case_type case_number filing_year st = (out, st') ->
  ∃ before rest,
    history st' = history st ++ before ++ rest
    ∧ Forall plain_request before
    ∧ (rest = [] ∨ ∃ tail, rest = Called CheckCaptcha :: tail ∧ Called CheckCaptcha ∉ tail).
Proof.
  unfold fetch_case_data. unfold bind at 1.
  destruct (_find_working_url server st) as [res st1] eqn:Hres.
  apply find_working_url_history in Hres as (k & Hk).
  destruct (negb (truthy res)).
  { intros [= _ <-]. exists (probes (take k (search_urls st))), [].
    rewrite app_nil_r. split; [done|]. split; [apply probes_plain|by left]. }
  unfold bind at 1. fold (load (default "" res)). rewrite send_after.
  assert (Forall plain_request (probes (take k (search_urls st)) ++ [Sent (load (default "" res))]))
    as Hplain.
  { apply Forall_app. split; [apply probes_plain|].
    apply Forall_singleton. by exists (load (default "" res)). }
  assert (history (after st1 [Sent (load (default "" res))])
          = history st ++ (probes (take k (search_urls st)) ++ [Sent (load (default "" res))]))
    as Hloaded.
  { simpl. by rewrite Hk, <- app_assoc. }
  set (st2 := after st1 [Sent (load (default "" res))]) in *.
  destruct (server (history st1) (load (default "" res))) as [search_page|e|e].
  2,3:(intros [= _ <-]; eexists _, []; rewrite app_nil_r;
       (split; [exact Hloaded|]); (split; [done|by left])).
  destruct ((400 <=? status_code search_page) && (status_code search_page <? 600)).
  { destruct (status_code search_page =? 404); intros [= _ <-]; eexists _, [];
      rewrite app_nil_r; (split; [exact Hloaded|]); (split; [done|by left]). }
  unfold bind at 1. rewrite log_after.
  assert (∀ out0 st3,
             unchecked (after st2 [Called CheckCaptcha]) st3 ->
             (out0, st3) = (out, st') ->
             ∃ before rest,
               history st' = history st ++ before ++ rest
               ∧ Forall plain_request before
               ∧ (rest = [] ∨ ∃ tail, rest = Called CheckCaptcha :: tail
                                      ∧ Called CheckCaptcha ∉ tail)) as Hend.
  { intros out0 st3 (tail & Htail & Hno) [= _ <-].
    eexists _, (Called CheckCaptcha :: tail). split; [|split; [exact Hplain|]].
    - rewrite Htail.
      change (history (after st2 [Called CheckCaptcha]))
        with (history st2 ++ [Called CheckCaptcha]).
      rewrite Hloaded. by rewrite <- !app_assoc.
    - right. by exists tail. }
  destruct (has_captcha (_check_captcha (soup search_page))).
  { intros H. eapply Hend; [apply unchecked_refl|exact H]. }
  destruct (negb (nonempty_list _)).
  { intros H. eapply Hend; [apply unchecked_refl|exact H]. }
  unfold bind.
  destruct (_attempt_search_submissions _ _ _ _ _ _ _) as [case_data st3] eqn:Hsub.
  apply attempt_search_submissions_unchecked in Hsub.
  destruct case_data; intros H; (eapply Hend; [exact Hsub|exact H]).
Qed.

(** C1, amended. The obstacle detector is not run on the responses to
    submissions: [_attempt_search_submissions] never calls it.  In a
    query it is called at most once, on the search page loaded from the
    resolved URL and before any submission is sent; if that page is
    obstructed, [fetch_case_data] returns the CAPTCHA outcome at once and
    sends no submission at all. *)
Theorem C1_obstacle_check_is_on_the_search_page
    (server : remote) case_type case_number filing_year (st : scraper) :
  (∀ working_url form_data_list st0 out st1,
      _attempt_search_submissions server working_url form_data_list
        case_type case_number filing_year st0 = (out, st1) ->
      ∃ evs, history st1 = history st0 ++ evs ∧ Called CheckCaptcha ∉ evs)
  ∧ (∀ out st',
        fetch_case_data server case_type case_number filing_year st = (out, st') ->
        ∃ before rest,
          history st' = history st ++ before ++ rest
          ∧ Forall plain_request before
          ∧ (rest = [] ∨ ∃ tail, rest = Called CheckCaptcha :: tail
                                 ∧ Called CheckCaptcha ∉ tail))
  ∧ (∀ url st1 search_page,
        _find_working_url server st = (Some url, st1) ->
        url ≠ "" ->
        server (history st1) (load url) = Reply search_page ->
        ¬ 400 <= status_code search_page < 600 ->
        has_captcha (_check_captcha (soup search_page)) = true ->
        fetch_case_data server case_type case_number filing_year st
        = (Failed (CaptchaRequired (_check_captcha (soup search_page))),
           after st1 [Sent (load url); Called CheckCaptcha])).
Proof.
  split; [|split].
  - intros working_url form_data_list st0 out st1 H.
    by apply attempt_search_submissions_unchecked in H.
  - intros out st'. apply fetch_case_data_history.
  - intros url st1 search_page Hres Hurl Hreply Hstatus Hcap.
    unfold fetch_case_data. unfold bind at 1. rewrite Hres.
    assert (truthy (Some url) = true) as -> by (by destruct url).
    cbn [negb default from_option id]. unfold bind at 1. fold (load url).
    rewrite send_after, Hreply.
    replace ((400 <=? status_code search_page) && (status_code search_page <? 600))
      with false.
    2:{ symmetry. apply not_true_is_false. intros Hc.
        apply andb_true_iff in Hc as [H1 H2].
        apply Z.leb_le in H1. apply Z.ltb_lt in H2. lia. }
    unfold bind. rewrite log_after, after_after, Hcap. done.
Qed.

Lemma C1_witness :
  (∃ evs, history
            (_attempt_search_submissions challenging_server
               "https://wardha.dcourts.gov.in/case-status/"
               (form_variations "CR" "12" 2020) "CR" "12" 2020 resolved_instance).2
          = history resolved_instance ++ evs
          ∧ Called CheckCaptcha ∉ evs)
  ∧ (∃ before rest,
        history (fetch_case_data friendly_server "CR" "12" 2020 new_scraper).2
        = history new_scraper ++ before ++ rest
        ∧ Forall plain_request before
        ∧ (rest = [] ∨ ∃ tail, rest = Called CheckCaptcha :: tail
                               ∧ Called CheckCaptcha ∉ tail))
  ∧ fetch_case_data obstructed_server "CR" "12" 2020 resolved_instance
    = (Failed (CaptchaRequired (_check_captcha (soup obstructed_page))),
       after resolved_instance
         [Sent (load "https://wardha.dcourts.gov.in/case-status/"); Called CheckCaptcha]).
Proof.
  split; [|split].
  - destruct (C1_obstacle_check_is_on_the_search_page challenging_server "CR" "12" 2020
                resolved_instance) as [H _].
    eapply H. apply surjective_pairing.
  - destruct (C1_obstacle_check_is_on_the_search_page friendly_server "CR" "12" 2020
                new_scraper) as (_ & H & _).
    eapply H. apply surjective_pairing.
  - destruct (C1_obstacle_check_is_on_the_search_page obstructed_server "CR" "12" 2020
                resolved_instance) as (_ & _ & H).
    apply (H "https://wardha.dcourts.gov.in/case-status/" resolved_instance obstructed_page).
    + reflexivity.
    + discriminate.
    + reflexivity.
    + vm_compute. intros [H' _]. by apply H'.
    + vm_compute. reflexivity.
Defined.

(* ===================================================================== *)
(** * Further properties: hidden fields *)
(* ===================================================================== *)

Lemma find_filter {A} (p q : A -> bool) (l : list A) :
  find p (List.filter q l) = find (fun x => q x && p x) l.
Proof.
  induction l as [|x l IH]; [done|]. simpl.
  destruct (q x); simpl; [|done]. by destruct (p x).
Qed.

Lemma find_ext {A} (p q : A -> bool) (l : list A) :
  (∀ x, p x = q x) -> find p l = find q l.
Proof.
  intros H. induction l as [|x l IH]; [done|]. simpl. by rewrite H, IH.
Qed.

Lemma nonempty_true (s : string) : nonempty s = true <-> s ≠ "".
Proof. destruct s; simpl; split; congruence. Qed.

(** The pass over the known names only records values found on the page. *)
Lemma hidden_by_name_sound soup (names : list string) (h : gmap string string) :
  "" ∉ names ->
  (∀ n v, h !! n = Some v ->
     n ≠ "" ∧ ∃ e, find_hidden_input soup n = Some e ∧ get "value" e = Some v) ->
  ∀ n v, foldl (hidden_by_name soup) h names !! n = Some v ->
    n ≠ "" ∧ ∃ e, find_hidden_input soup n = Some e ∧ get "value" e = Some v.
Proof.
  revert h. induction names as [|f names IH]; intros h Hne Hh; [done|].
  simpl. apply IH.
  - intros Hin. apply Hne. by right.
  - intros n v. unfold hidden_by_name.
    destruct (find_hidden_input soup f) as [e|] eqn:He; [|apply Hh].
    destruct (get "value" e) as [w|] eqn:Hw; [|apply Hh].
    destruct (nonempty w); [|apply Hh].
    destruct (decide (f = n)) as [->|Hfn].
    + rewrite lookup_insert_eq. intros [= <-]. split.
      * intros ->. apply Hne. left.
      * by exists e.
    + rewrite lookup_insert_ne by done. apply Hh.
Qed.

(** The pass over all hidden inputs fills the names not yet present, each
    from its first occurrence. *)
Lemma hidden_any_lookup (l : list node) (h : gmap string string) (n : string) :
  foldl hidden_any h l !! n =
    match h !! n with
    | Some v => Some v
    | None => if nonempty n then hidden_value <$> find (attr_is "name" n) l else None
    end.
Proof.
  revert h. induction l as [|e l IH]; intros h.
  - simpl. destruct (h !! n); [done|]. by destruct (nonempty n).
  - simpl. rewrite IH. unfold hidden_any at 1, attr_is at 2.
    destruct (get "name" e) as [name|] eqn:Hname; [|done].
    destruct (String.eqb_spec name n) as [->|Hne].
    + destruct (h !! n) as [v|] eqn:Hn.
      * replace (bool_decide (is_Some (h !! n))) with true
          by (symmetry; apply bool_decide_eq_true; rewrite Hn; eauto).
        rewrite andb_false_r. by rewrite Hn.
      * replace (bool_decide (is_Some (h !! n))) with false
          by (symmetry; apply bool_decide_eq_false; rewrite Hn; by intros [? ?]).
        rewrite andb_true_r. destruct (nonempty n) eqn:Hnn.
        -- by rewrite lookup_insert_eq.
        -- by rewrite Hn.
    + destruct (nonempty name && negb (bool_decide (is_Some (h !! name)))); [|done].
      by rewrite lookup_insert_ne.
Qed.

(** X1. The hidden fields are exactly the hidden inputs with a non-empty
    name, and a name that occurs on several hidden inputs keeps the value
    of its first occurrence (the empty string when that input has no
    value). *)
Theorem X1_hidden_fields_first_occurrence (soup : node) (n : string) :
  _extract_hidden_fields soup !! n =
    if nonempty n then hidden_value <$> find_hidden_input soup n else None.
Proof.
  unfold _extract_hidden_fields. rewrite hidden_any_lookup.
  destruct (foldl (hidden_by_name soup) ∅ hidden_field_names !! n) as [v|] eqn:H0.
  - apply (hidden_by_name_sound soup hidden_field_names ∅) in H0
      as (Hn & e & He & Hv).
    + apply nonempty_true in Hn. rewrite Hn, He. unfold hidden_value. simpl.
      by rewrite Hv.
    + unfold hidden_field_names. intros H.
      repeat (apply elem_of_cons in H as [H|H]; [discriminate H|]).
      by apply elem_of_nil in H.
    + intros n' v'. by rewrite lookup_empty.
  - destruct (nonempty n); [|done]. f_equal.
    rewrite find_filter. apply find_ext. intros x. apply andb_comm.
Qed.

(* ===================================================================== *)
(** * Further properties: the extracted record *)
(* ===================================================================== *)

Lemma any_in_elem (k : string) (ks : list string) (s : string) :
  k ∈ ks -> str_in k s = true -> any_in ks s = true.
Proof. intros Hin Hk. unfold any_in. by apply (existsb_elem _ ks k). Qed.

(** Destructs every test of the goal, keeping the equations. *)
Ltac split_ifs :=
  repeat match goal with
         | |- context [if ?b then _ else _] => destruct b eqn:?
         end.

Lemma info_row_step_next_hearing c row :
  next_hearing_date (info_row_step c row) = next_hearing_date c.
Proof.
  unfold info_row_step.
  destruct (find_all ["td"; "th"] row) as [|c0 [|c1 cells]]; [done..|].
  set (label := lower (get_text_strip c0)).
  split_ifs; try done.
  exfalso.
  match goal with
  | H : (any_in _ label && _) = false, H' : str_in "date" label = true |- _ =>
      rewrite ?H', andb_true_r in H;
      rewrite (any_in_elem "date" _ label) in H; [discriminate H| |exact H']
  end.
  right. right. left.
Qed.

Lemma structured_label_step_next_hearing c label :
  next_hearing_date (structured_label_step c label) = next_hearing_date c.
Proof.
  unfold structured_label_step. destruct (next_sibling label); [|done].
  split_ifs; done.
Qed.

Lemma foldl_preserves {A B C} (f : A -> C) (step : A -> B -> A) (l : list B) (a : A) :
  (∀ a b, f (step a b) = f a) -> f (foldl step a l) = f a.
Proof.
  intros H. revert a. induction l as [|b l IH]; intros a; [done|].
  simpl. by rewrite IH, H.
Qed.

Lemma extract_case_info_next_hearing
    (soup : node) case_type case_number filing_year :
  next_hearing_date (_extract_case_info soup case_type case_number filing_year) = None.
Proof.
  unfold _extract_case_info. cbv zeta.
  rewrite (foldl_preserves next_hearing_date).
  2:{ intros a div. unfold detail_div_step. destruct (_ && _); [|done].
      unfold _extract_from_structured_div.
      apply (foldl_preserves next_hearing_date).
      apply structured_label_step_next_hearing. }
  destruct (find _ (find_all ["h1"; "h2"; "h3"; "h4"] soup)); simpl;
    by rewrite (foldl_preserves next_hearing_date _ _ _ info_row_step_next_hearing).
Qed.

(** X2. The structured extractor never fills in the next hearing date: a
    label that contains "date" is always taken by the filing-date branch
    (or by a party branch) before the hearing branch is reached. *)
Theorem X2_next_hearing_date_is_never_extracted
    (soup : node) case_type case_number filing_year :
  next_hearing_date (_extract_case_info soup case_type case_number filing_year) = None.
Proof. apply extract_case_info_next_hearing. Qed.

Lemma add_petitioner_ok (v : string) (c : case_data) :
  v ≠ "" -> parties_ok c -> parties_ok (add_petitioner v c).
Proof.
  intros Hv (Hp & Hr & Hpe & Hre). unfold parties_ok, add_petitioner. simpl.
  case_bool_decide as Hin; [done|].
  split; [|split; [done|split; [|done]]].
  - apply NoDup_app. split; [done|]. split; [|apply NoDup_singleton].
    intros x Hx ->%list_elem_of_singleton. done.
  - rewrite elem_of_app, list_elem_of_singleton. intros [?|?]; [done|]. by apply Hv.
Qed.

Lemma add_respondent_ok (v : string) (c : case_data) :
  v ≠ "" -> parties_ok c -> parties_ok (add_respondent v c).
Proof.
  intros Hv (Hp & Hr & Hpe & Hre). unfold parties_ok, add_respondent. simpl.
  case_bool_decide as Hin; [done|].
  split; [done|]. split; [|split; [done|]].
  - apply NoDup_app. split; [done|]. split; [|apply NoDup_singleton].
    intros x Hx ->%list_elem_of_singleton. done.
  - rewrite elem_of_app, list_elem_of_singleton. intros [?|?]; [done|]. by apply Hv.
Qed.

Lemma info_row_step_parties c row : parties_ok c -> parties_ok (info_row_step c row).
Proof.
  intros Hc. unfold info_row_step.
  destruct (find_all ["td"; "th"] row) as [|c0 [|c1 cells]]; [done..|].
  destruct (nonempty (get_text_strip c1)) eqn:Hv; [|done]. simpl.
  apply nonempty_true in Hv.
  split_ifs; try done.
  - by apply add_petitioner_ok.
  - by apply add_respondent_ok.
Qed.

Lemma structured_label_step_parties c label :
  parties_ok c -> parties_ok (structured_label_step c label).
Proof.
  intros Hc. unfold structured_label_step.
  destruct (next_sibling label) as [sib|]; [|done].
  destruct (sibling_truthy sib); [|done].
  set (value := match sib with NavigableString s => strip s | _ => get_text_strip sib end).
  destruct (nonempty value) eqn:Hv; simpl; [|done].
  apply nonempty_true in Hv.
  split_ifs; [by apply add_petitioner_ok|by apply add_respondent_ok|done].
Qed.

Lemma foldl_invariant {A B} (P : A -> Prop) (step : A -> B -> A) (l : list B) (a : A) :
  (∀ a b, P a -> P (step a b)) -> P a -> P (foldl step a l).
Proof.
  intros H. revert a. induction l as [|b l IH]; intros a Ha; [done|].
  simpl. by apply IH, H.
Qed.

Lemma extract_case_info_parties
    (soup : node) case_type case_number filing_year :
  parties_ok (_extract_case_info soup case_type case_number filing_year).
Proof.
  unfold _extract_case_info. cbv zeta.
  apply foldl_invariant.
  { intros a div Ha. unfold detail_div_step. destruct (_ && _); [|done].
    unfold _extract_from_structured_div.
    apply foldl_invariant; [|done]. intros. by apply structured_label_step_parties. }
  assert (parties_ok
            (foldl info_row_step
               (CaseData (default_title case_type case_number filing_year)
                  "District and Sessions Court, Wardha" [] [] None None None None None []
                  None None)
               (find_all ["table"] soup ≫= find_all ["tr"]))) as Hrows.
  { apply foldl_invariant; [intros; by apply info_row_step_parties|].
    repeat split; simpl; try apply NoDup_nil_2; apply not_elem_of_nil. }
  by destruct (find _ (find_all ["h1"; "h2"; "h3"; "h4"] soup)).
Qed.

(** X3. In every record the structured extractor builds, no petitioner
    and no respondent is listed twice, and no listed name is empty. *)
Theorem X3_extracted_parties_are_distinct_names
    (soup : node) case_type case_number filing_year :
  parties_ok (_extract_case_info soup case_type case_number filing_year).
Proof. apply extract_case_info_parties. Qed.

(* ===================================================================== *)
(** * Further properties: the obstacle detector *)
(* ===================================================================== *)

Lemma captcha_loop_elements soup (l : list (selector * string)) (info : captcha_info) :
  captcha_elements (foldl (captcha_step soup) info l) =
    captcha_elements info
    ++ (element_of soup
          <$> List.filter (fun indicator => nonempty_list (select indicator.1 soup)) l).
Proof.
  revert info. induction l as [|ind l IH]; intros info; [by rewrite app_nil_r|].
  cbn [foldl List.filter]. rewrite IH. unfold captcha_step.
  destruct (select ind.1 soup) as [|e es] eqn:Hsel; cbn [nonempty_list]; [done|].
  cbn [captcha_elements fmap list_fmap]. rewrite <- app_assoc.
  unfold element_of at 2. by rewrite Hsel.
Qed.

Lemma last_is_None {A} (l : list A) : last l = None <-> l = [].
Proof.
  split; [|by intros ->].
  destruct l as [|x l]; [done|]. rewrite last_cons. by destruct (last l).
Qed.

(** X4. The detector names a kind exactly when it reports an obstruction,
    and [captcha_elements] lists the matching structural indicators in
    the fixed order, each with the number of elements it matched, which
    is never zero. *)
Theorem X4_captcha_report_is_consistent (soup : node) :
  (is_Some (captcha_type (_check_captcha soup)) <-> has_captcha (_check_captcha soup) = true)
  ∧ captcha_elements (_check_captcha soup) = element_of soup <$> matching_indicators soup
  ∧ Forall (fun e => (0 < ce_count e)%nat) (captcha_elements (_check_captcha soup)).
Proof.
  assert (captcha_elements (_check_captcha soup)
          = element_of soup <$> matching_indicators soup) as Hel.
  { unfold _check_captcha, matching_indicators.
    pose proof (captcha_loop_elements soup captcha_indicators (CaptchaInfo false None []))
      as He.
    destruct (any_in captcha_words (lower (get_text soup))); simpl; exact He. }
  split; [|split; [exact Hel|]].
  - unfold _check_captcha.
    pose proof (captcha_loop_type soup captcha_indicators (CaptchaInfo false None [])) as Ht.
    pose proof (captcha_loop_flag soup captcha_indicators (CaptchaInfo false None [])) as Hf.
    simpl captcha_type in Ht. simpl has_captcha in Hf.
    destruct (any_in captcha_words (lower (get_text soup))); simpl.
    + split; [done|]. intros _. destruct (captcha_type _); eauto.
    + rewrite Ht, Hf.
      destruct (List.filter _ captcha_indicators) as [|x xs] eqn:Hm; simpl.
      * split; [by intros [? ?]|done].
      * split; [done|]. intros _.
        destruct (last (x :: xs)) eqn:Hl; [eauto|]. by apply last_is_None in Hl.
  - rewrite Hel. apply Forall_fmap, Forall_forall. intros ind Hin.
    unfold matching_indicators in Hin. apply list_elem_of_In, filter_In in Hin as [_ Hne].
    simpl. destruct (select ind.1 soup); [done|]. simpl. lia.
Qed.

(** X5. A page whose text contains "captcha", "verification code" or
    "security code" in any letter case is reported as obstructed, whether
    or not a structural indicator matches. *)
Theorem X5_captcha_words_are_found_in_any_case (soup : node) (word pre s post : string) :
  word ∈ captcha_words ->
  lower s = word ->
  get_text soup = pre +:+ s +:+ post ->
  has_captcha (_check_captcha soup) = true.
Proof.
  intros Hin Hlow Htext. unfold _check_captcha.
  rewrite (any_in_elem word captcha_words); [done|done|].
  rewrite Htext, !lower_app, Hlow. apply str_in_app.
Qed.

Lemma X5_witness :
  has_captcha (_check_captcha page_with_security_code_text) = true
  ∧ matching_indicators page_with_security_code_text = [].
Proof.
  split; [|vm_compute; reflexivity].
  apply (X5_captcha_words_are_found_in_any_case page_with_security_code_text
           "security code" "Enter the " "Security Code" " shown below").
  - right. right. left.
  - reflexivity.
  - reflexivity.
Defined.

(* ===================================================================== *)
(** * Further properties: the date normalizer *)
(* ===================================================================== *)

Lemma app_nonempty (a b : string) (c : ascii) : a +:+ String c b ≠ "".
Proof. by destruct a. Qed.

Lemma try_formats_some_inv (fmts : list string) (t r : string) :
  try_formats fmts t = Some r ->
  ∃ fmt d, fmt ∈ fmts ∧ Strptime.strptime t fmt = Some d
           ∧ year_ok (Strptime.year d) = true ∧ r = Strptime.strftime_iso d.
Proof.
  induction fmts as [|f fmts IH]; [done|]. simpl.
  destruct (Strptime.strptime t f) as [d|] eqn:Hp.
  - destruct (year_ok (Strptime.year d)) eqn:Hy.
    + intros [= <-]. exists f, d. split; [left|done].
    + intros H. destruct (IH H) as (fmt & d' & ? & ?). exists fmt, d'. split; [by right|done].
  - intros H. destruct (IH H) as (fmt & d' & ? & ?). exists fmt, d'. split; [by right|done].
Qed.

Lemma from_digit_runs_some_inv (t r : string) :
  from_digit_runs t = Some r ->
  ∃ y m d, r = iso y m d ∧ 1950 <= y <= 2030 ∧ 1 <= m <= 12 ∧ 1 <= d <= 31.
Proof.
  unfold from_digit_runs.
  destruct (Re.findall false Re.digit_run t) as [|n0 [|n1 [|n2 more]]]; [done..|].
  cbv zeta. destruct (_ && _ && _ && _ && _) eqn:Hc; [|done].
  intros [= <-]. unfold year_ok in Hc. rewrite !andb_true_iff, !Z.leb_le in Hc.
  eexists _, _, _. split; [reflexivity|]. lia.
Qed.

Lemma parse_date_nonempty (s r : string) : _parse_date s = Some r -> r ≠ "".
Proof.
  unfold _parse_date. destruct (negb (nonempty s) || negb (nonempty (strip s))) eqn:Hb; [done|].
  apply orb_false_iff in Hb as [_ Hb]. apply negb_false_iff, nonempty_true in Hb.
  destruct (try_formats date_formats (strip s)) as [r1|] eqn:H1.
  - intros [= <-]. apply try_formats_some_inv in H1 as (fmt & d & _ & _ & _ & ->).
    apply app_nonempty.
  - destruct (from_digit_runs (strip s)) as [r2|] eqn:H2.
    + intros [= <-]. apply from_digit_runs_some_inv in H2 as (y & m & d & -> & _).
      apply app_nonempty.
    + by intros [= <-].
Qed.


Lemma lstrip_idem (s : string) : lstrip (lstrip s) = lstrip s.
Proof.
  induction s as [|c r IH]; [done|]. simpl.
  destruct (is_space c) eqn:Hc; [done|]. simpl. by rewrite Hc.
Qed.

Lemma lstrip_head (s : string) :
  lstrip s = "" ∨ ∃ c r, lstrip s = String c r ∧ is_space c = false.
Proof.
  induction s as [|c r IH]; [by left|]. simpl.
  destruct (is_space c) eqn:Hc; [done|]. right. by exists c, r.
Qed.

Lemma rstrip_cons (c : ascii) (r : string) :
  is_space c = false -> rstrip (String c r) = String c (rstrip r).
Proof. intros Hc. simpl. rewrite Hc. by destruct (rstrip r). Qed.

Lemma rstrip_idem (s : string) : rstrip (rstrip s) = rstrip s.
Proof.
  induction s as [|c r IH]; [done|]. simpl.
  destruct (rstrip r) as [|c' r'] eqn:Hr.
  - destruct (is_space c) eqn:Hc; [done|]. simpl. by rewrite Hc.
  - change (rstrip (String c (String c' r')))
      with (match rstrip (String c' r') with
            | EmptyString => if is_space c then EmptyString else String c EmptyString
            | r0 => String c r0
            end).
    by rewrite IH.
Qed.

Lemma strip_idem (s : string) : strip (strip s) = strip s.
Proof.
  unfold strip. destruct (lstrip_head s) as [->|(c & r & -> & Hc)]; [done|].
  rewrite (rstrip_cons c r Hc). simpl lstrip. rewrite Hc.
  rewrite (rstrip_cons c (rstrip r) Hc). by rewrite rstrip_idem.
Qed.

(** X7. White space around the input never changes the result: the
    normalizer gives the same answer for a string and for its stripped
    form. *)
Theorem X7_parse_date_ignores_surrounding_space (s : string) :
  _parse_date (strip s) = _parse_date s.
Proof.
  destruct (decide (strip s = "")) as [He|Hne].
  - rewrite He. unfold _parse_date. rewrite He. simpl. by rewrite orb_true_r.
  - rewrite (parse_date_stripped s Hne).
    rewrite (parse_date_stripped (strip s)); rewrite strip_idem; done.
Qed.

(* ===================================================================== *)
(** * Further properties: the order list *)
(* ===================================================================== *)

Lemma parse_date_none_or_truthy (s : string) :
  _parse_date s = None ∨ truthy (_parse_date s) = true.
Proof.
  destruct (_parse_date s) as [r|] eqn:H; [|by left]. right.
  apply parse_date_nonempty in H. simpl. by apply nonempty_true.
Qed.

Lemma search_date_none_or_truthy (pats : list Re.regex) (text : string) :
  match search_date pats text with
  | Some d => d = None ∨ truthy d = true
  | None => True
  end.
Proof.
  induction pats as [|p pats IH]; [done|]. simpl.
  destruct (Re.search false p text); [apply parse_date_none_or_truthy|exact IH].
Qed.

Lemma longer_nonempty (n : nat) (s : string) : (n <? String.length s)%nat = true -> s ≠ "".
Proof. intros H ->. simpl in H. by apply Nat.ltb_lt, Nat.nlt_0_r in H. Qed.

Lemma pdf_link_step_ok os l : Forall order_ok os -> Forall order_ok (pdf_link_step os l).
Proof.
  intros Hos. unfold pdf_link_step.
  destruct (get "href" (self l)) as [href|]; [|done].
  destruct (nonempty href); [|done]. cbv zeta.
  apply Forall_app. split; [done|]. apply Forall_singleton. split; cbn [description date].
  - destruct (nonempty (get_text_strip (self l))) eqn:Ht; [by apply nonempty_true|done].
  - set (text := if nonempty (get_text_strip (self l)) then _ else _).
    pose proof (search_date_none_or_truthy date_patterns text) as H0.
    pose proof (search_date_none_or_truthy date_patterns (get_text (parent l))) as H1.
    destruct (truthy (default None (search_date date_patterns text))) eqn:Hd; [by right|].
    destruct (search_date date_patterns (get_text (parent l))) as [d1|]; [exact H1|].
    cbn [default from_option id].
    destruct (search_date date_patterns text) as [d0|]; [exact H0|by left].
Qed.

Lemma table_row_step_ok os row : Forall order_ok os -> Forall order_ok (table_row_step os row).
Proof.
  intros Hos. unfold table_row_step.
  destruct (find_all ["td"; "th"] row) as [|c0 [|c1 cells]]; [done..|].
  destruct (any_in _ (lower (get_text_strip c0))); [|done].
  set (order_text := String.concat " " _).
  destruct ((20 <? String.length order_text)%nat && _ && _) eqn:Hc; [|done].
  apply andb_true_iff in Hc as [Hc _]. apply andb_true_iff in Hc as [Hc _].
  apply Forall_app. split; [done|]. apply Forall_singleton. split; cbn [description date].
  - by eapply longer_nonempty.
  - pose proof (search_date_none_or_truthy date_patterns order_text) as H0.
    destruct (search_date date_patterns order_text); [exact H0|by left].
Qed.

Lemma container_item_step_ok os item :
  Forall order_ok os -> Forall order_ok (container_item_step os item).
Proof.
  intros Hos. unfold container_item_step.
  destruct ((15 <? String.length (get_text_strip item))%nat && _) eqn:Hc; [|done].
  apply andb_true_iff in Hc as [Hc _]. cbv zeta.
  destruct (negb (has_description _ os)); [|done].
  apply Forall_app. split; [done|]. apply Forall_singleton. split; cbn [description date].
  - by eapply longer_nonempty.
  - pose proof (search_date_none_or_truthy date_patterns (get_text_strip item)) as H0.
    destruct (search_date date_patterns (get_text_strip item)); [exact H0|by left].
Qed.

Lemma extract_orders_ok (soup : node) : Forall order_ok (_extract_orders soup).
Proof.
  unfold _extract_orders. apply Forall_take.
  apply foldl_invariant; [intros; by apply container_item_step_ok|].
  apply foldl_invariant; [intros; by apply table_row_step_ok|].
  apply foldl_invariant; [intros; by apply pdf_link_step_ok|]. constructor.
Qed.

(** X8. Every entry of the order list has a non-empty description, and
    its date is either absent or a non-empty string, on every page. *)
Theorem X8_orders_have_descriptions (soup : node) : Forall order_ok (_extract_orders soup).
Proof. apply extract_orders_ok. Qed.

Lemma href_is_pdf_inv (n : node) :
  href_is_pdf n = true -> ∃ h, get "href" n = Some h ∧ nonempty h = true.
Proof.
  unfold href_is_pdf. destruct (get "href" n) as [h|]; [|done].
  intros H. exists h. split; [done|]. by destruct h.
Qed.

(** The PDF-link pass adds one entry per link, described by its text. *)
Lemma pdf_pass_descriptions (links : list located) (os : list order) :
  Forall (fun l => href_is_pdf (self l) = true) links ->
  description <$> foldl pdf_link_step os links
  = (description <$> os) ++ (link_description <$> links).
Proof.
  revert os. induction links as [|l links IH]; intros os Hall.
  - simpl. by rewrite app_nil_r.
  - apply Forall_cons in Hall as [Hl Hall]. simpl. rewrite (IH _ Hall).
    unfold pdf_link_step. apply href_is_pdf_inv in Hl as (h & -> & ->).
    cbv zeta. rewrite fmap_app, <- app_assoc. done.
Qed.

(** X9. When the PDF links of a page have pairwise different link texts
    (an empty text counting as the generic placeholder), no two entries
    of the order list share a description. *)
Theorem X9_distinct_link_texts_give_distinct_descriptions (soup : node) :
  NoDup (link_description <$> pdf_links soup) ->
  NoDup (description <$> _extract_orders soup).
Proof.
  intros Hnd. apply extract_orders_NoDup_after_pdf_pass.
  rewrite pdf_pass_descriptions; [done|].
  unfold pdf_links. apply Forall_forall. intros l Hl.
  by apply list_elem_of_In, filter_In in Hl as [_ Hl].
Qed.

Lemma X9_witness :
  description <$> _extract_orders distinct_links_page
  = ["Order dated 01-02-2020 in the matter"; "Wardha District Court Document";
     "Hearing adjourned to 05-06-2022"]
  ∧ NoDup (description <$> _extract_orders distinct_links_page).
Proof.
  split; [vm_compute; reflexivity|].
  apply X9_distinct_link_texts_give_distinct_descriptions.
  vm_compute. apply NoDup_cons. split.
  - intros H. apply list_elem_of_singleton in H. discriminate H.
  - apply NoDup_singleton.
Defined.

(* ===================================================================== *)
(** * Further properties: the search form and the case-type dropdown *)
(* ===================================================================== *)








Lemma case_type_of_option_ok (option : node) :
  Forall case_type_entry_ok (case_type_of_option option).
Proof.
  unfold case_type_of_option. cbv zeta.
  destruct (_ && _ && _) eqn:Hc; [|constructor].
  apply andb_true_iff in Hc as [Hc Hp]. apply andb_true_iff in Hc as [Hne H0].
  apply Forall_singleton. unfold case_type_entry_ok. simpl.
  split; [by apply nonempty_true|]. split.
  - intros Heq. rewrite Heq in H0. discriminate H0.
  - split; [apply strip_idem|]. split; [|done].
    intros Hin. apply negb_true_iff in Hp.
    rewrite (existsb_elem _ option_placeholders (lower (get_text_strip option)) Hin) in Hp;
      [discriminate Hp|apply String.eqb_refl].
Qed.

Lemma case_types_of_page_ok (soup : node) :
  Forall case_type_entry_ok (case_types_of_page soup)
  ∧ (length (case_types_of_page soup) <= 30)%nat.
Proof.
  unfold case_types_of_page. split.
  - apply Forall_take, Forall_bind, Forall_forall. intros o _. apply case_type_of_option_ok.
  - rewrite length_take. lia.
Qed.

(** X11. Whatever the site answers, [get_supported_case_types] lists at
    most 30 case types, and never one with an empty or "0" value or with
    a placeholder label ("select", "choose", "निवडा" in any letter case);
    every listed value is stripped. *)
Theorem X11_case_types_are_real_options (server : remote) (st : scraper) :
  Forall case_type_entry_ok (get_supported_case_types server st).1
  ∧ (length (get_supported_case_types server st).1 <= 30)%nat.
Proof.
  unfold get_supported_case_types, bind.
  destruct (_find_working_url server st) as [url st1].
  destruct (negb (truthy url)); [split; [constructor|simpl; lia]|].
  rewrite send_after. destruct (server _ _) as [r|e|e]; simpl.
  - apply case_types_of_page_ok.
  - split; [constructor|lia].
  - split; [constructor|lia].
Qed.

(* ===================================================================== *)
(** * Further properties: the submission loops *)
(* ===================================================================== *)

Section Loops.

Variable server : remote.

(** One turn of the loop over the method and path combinations. *)
Lemma try_methods_cons url form_data case_type case_number filing_year
    method endpoint methods st :
  try_methods server url form_data case_type case_number filing_year
    ((method, endpoint) :: methods) st
  = let req := submission method (url +:+ endpoint) form_data in
    match server (history st) req with
    | Reply r =>
        if status_code r =? 200 then
          let '(out, st') :=
            _parse_response r case_type case_number filing_year (received st r req) in
          (match out with Found c => Some c | Failed _ => None end, st')
        else try_methods server url form_data case_type case_number filing_year
               methods (after st [Sent req])
    | RequestException _ | OtherException _ =>
        try_methods server url form_data case_type case_number filing_year
          methods (after st [Sent req])
    end.
Proof.
  cbv zeta. cbn [try_methods]. unfold bind at 1. unfold _submit_form, bind at 1.
  fold (submission method (url +:+ endpoint) form_data).
  rewrite send_after. destruct (server _ _) as [r|e|e]; [|done..].
  destruct (status_code r =? 200) eqn:Hs; [|done].
  unfold bind at 1. cbn [set_last_raw_response after search_urls working_url
                         last_raw_response history ret].
  rewrite Hs. unfold bind. fold (received st r (submission method (url +:+ endpoint) form_data)).
  destruct (_parse_response _ _ _ _ _) as [out st']. by destruct out.
Qed.

(** One turn of the loop over the strategies. *)
Lemma try_strategies_cons url form_data rest case_type case_number filing_year st :
  try_strategies server url (form_data :: rest) case_type case_number filing_year st
  = let '(r, st1) :=
      try_methods server url form_data case_type case_number filing_year
        methods_to_try st in
    match r with
    | Some c => (Some c, after st1 [Slept 2])
    | None => try_strategies server url rest case_type case_number filing_year
                (after st1 [Slept 2])
    end.
Proof.
  cbn [try_strategies]. unfold bind at 1.
  destruct (try_methods _ _ _ _ _ _ _ _) as [r st1].
  unfold bind. rewrite log_after. by destruct r.
Qed.

Lemma parse_response_found r case_type case_number filing_year st c st' :
  _parse_response r case_type case_number filing_year st = (Found c, st') ->
  parsed_from r case_type case_number filing_year c
  ∧ ∃ cs, st' = after st (Called <$> cs) ∧ parse_calls cs.
Proof.
  rewrite parse_response_cases. cbv zeta.
  destruct (find _ error_indicators); [done|].
  destruct (_is_valid_case_data _) eqn:Hv.
  - intros [= <- <-]. split; [by left|]. exists [ExtractCaseInfo]. split; [done|by left].
  - destruct (_alternative_parsing _ _ _ _ _) as [alt|] eqn:Ha; [|done].
    intros [= <- <-]. split; [by right|].
    exists [ExtractCaseInfo; AlternativeParsing]. split; [done|by right].
Qed.

Lemma parsed_from_valid r case_type case_number filing_year c :
  parsed_from r case_type case_number filing_year c -> _is_valid_case_data c = true.
Proof. intros [[_ Hv]|Ha]; [done|]. by eapply placeholder_is_valid. Qed.

(** A record returned by the inner loop was parsed from a 200 reply to
    one of its submissions, after which nothing more was sent. *)
Lemma try_methods_found url form_data case_type case_number filing_year methods st c st' :
  try_methods server url form_data case_type case_number filing_year methods st
    = (Some c, st') ->
  (∃ h method endpoint r,
      (method, endpoint) ∈ methods
      ∧ server h (submission method (url +:+ endpoint) form_data) = Reply r
      ∧ status_code r = 200
      ∧ parsed_from r case_type case_number filing_year c
      ∧ last_raw_response st' = Some (text r))
  ∧ ∃ evs req cs,
      history st' = history st ++ evs ++ Sent req :: (Called <$> cs) ∧ parse_calls cs.
Proof.
  revert st. induction methods as [|[method endpoint] methods IH]; intros st; [done|].
  rewrite try_methods_cons. cbv zeta.
  set (req := submission method (url +:+ endpoint) form_data).
  assert (∀ H : try_methods server url form_data case_type case_number filing_year
                  methods (after st [Sent req]) = (Some c, st'),
             (∃ h method0 endpoint0 r,
                 (method0, endpoint0) ∈ (method, endpoint) :: methods
                 ∧ server h (submission method0 (url +:+ endpoint0) form_data) = Reply r
                 ∧ status_code r = 200
                 ∧ parsed_from r case_type case_number filing_year c
                 ∧ last_raw_response st' = Some (text r))
             ∧ ∃ evs req0 cs,
                 history st' = history st ++ evs ++ Sent req0 :: (Called <$> cs)
                 ∧ parse_calls cs) as Hnext.
  { intros H. destruct (IH _ H) as ((h & m & e & r & Hin & Hr) & (evs & req0 & cs & Hh & Hcs)).
    split.
    - exists h, m, e, r. split; [by right|done].
    - exists (Sent req :: evs), req0, cs. split; [|done].
      rewrite Hh. simpl. by rewrite <- app_assoc. }
  destruct (server (history st) req) as [r|e|e] eqn:Hreply; [|exact Hnext..].
  destruct (status_code r =? 200) eqn:Hs; [|exact Hnext].
  destruct (_parse_response _ _ _ _ _) as [out st2] eqn:Hp.
  destruct out as [c'|f]; [|done]. intros [= <- <-].
  apply parse_response_found in Hp as (Hfrom & cs & -> & Hcs).
  apply Z.eqb_eq in Hs. split.
  - exists (history st), method, endpoint, r. split; [left|done].
  - exists [], req, cs. split; [|done]. simpl. by rewrite <- app_assoc.
Qed.

Lemma requests_app (h1 h2 : list event) : requests (h1 ++ h2) = requests h1 ++ requests h2.
Proof. apply omap_app. Qed.

Lemma pauses_app (h1 h2 : list event) : pauses (h1 ++ h2) = pauses h1 ++ pauses h2.
Proof. apply omap_app. Qed.

Lemma calls_app (h1 h2 : list event) : calls (h1 ++ h2) = calls h1 ++ calls h2.
Proof. apply omap_app. Qed.

Lemma extractions_app (h1 h2 : list event) :
  extractions (h1 ++ h2) = (extractions h1 + extractions h2)%nat.
Proof. unfold extractions. by rewrite calls_app, List.filter_app, List.length_app. Qed.

(** What one call of [_parse_response] adds to the history. *)
Lemma parse_response_events r case_type case_number filing_year st out st' :
  _parse_response r case_type case_number filing_year st = (out, st') ->
  ∃ evs, st' = after st evs ∧ requests evs = [] ∧ pauses evs = []
         ∧ (extractions evs <= 1)%nat.
Proof.
  rewrite parse_response_cases. cbv zeta.
  destruct (find _ error_indicators).
  - intros [= <- <-]. exists []. rewrite after_nil. repeat split; cbv; lia.
  - destruct (_is_valid_case_data _); intros [= <- <-]; eexists; (split; [reflexivity|]);
      repeat split; cbv; lia.
Qed.

(** The inner loop sends at most one request per combination, never
    pauses, and has at most one reply parsed. *)
Lemma try_methods_counts url form_data case_type case_number filing_year methods st res st' :
  try_methods server url form_data case_type case_number filing_year methods st
    = (res, st') ->
  ∃ evs, history st' = history st ++ evs
         ∧ search_urls st' = search_urls st ∧ working_url st' = working_url st
         ∧ (length (requests evs) <= length methods)%nat
         ∧ pauses evs = []
         ∧ (extractions evs <= 1)%nat.
Proof.
  revert st. induction methods as [|[method endpoint] methods IH]; intros st.
  - intros [= <- <-]. exists []. rewrite app_nil_r. repeat split; cbv; lia.
  - rewrite try_methods_cons. cbv zeta.
    set (req := submission method (url +:+ endpoint) form_data).
    assert (try_methods server url form_data case_type case_number filing_year
              methods (after st [Sent req]) = (res, st') ->
            ∃ evs, history st' = history st ++ evs
                   ∧ search_urls st' = search_urls st ∧ working_url st' = working_url st
                   ∧ (length (requests evs) <= length ((method, endpoint) :: methods))%nat
                   ∧ pauses evs = []
                   ∧ (extractions evs <= 1)%nat) as Hnext.
    { intros H. destruct (IH _ H) as (evs & Hh & Hu & Hw & Hn & Hp & He).
      exists (Sent req :: evs). split; [|split; [done|split; [done|]]].
      - rewrite Hh. simpl. by rewrite <- app_assoc.
      - split; [|split].
        + change (Sent req :: evs) with ([Sent req] ++ evs).
          rewrite requests_app, List.length_app. simpl. lia.
        + done.
        + done. }
    destruct (server (history st) req) as [r|e|e]; [|exact Hnext..].
    destruct (status_code r =? 200); [|exact Hnext].
    destruct (_parse_response _ _ _ _ _) as [out st2] eqn:Hp.
    apply parse_response_events in Hp as (evs & -> & Hr & Hp & He).
    intros [= _ <-]. exists (Sent req :: evs).
    split; [simpl; by rewrite <- app_assoc|]. split; [done|]. split; [done|].
    change (Sent req :: evs) with ([Sent req] ++ evs).
    rewrite requests_app, pauses_app, extractions_app, Hr, Hp. simpl.
    split; [lia|]. split; [done|]. change (extractions [Sent req]) with 0%nat. lia.
Qed.

End Loops.

Section Executor.

Variable server : remote.

Lemma try_strategies_found url form_data_list case_type case_number filing_year st c st' :
  try_strategies server url form_data_list case_type case_number filing_year st
    = (Some c, st') ->
  (∃ h form_data method endpoint r,
      form_data ∈ form_data_list
      ∧ (method, endpoint) ∈ methods_to_try
      ∧ server h (submission method (url +:+ endpoint) form_data) = Reply r
      ∧ status_code r = 200
      ∧ parsed_from r case_type case_number filing_year c
      ∧ last_raw_response st' = Some (text r))
  ∧ ∃ evs req cs,
      history st' = history st ++ evs ++ Sent req :: (Called <$> cs) ++ [Slept 2]
      ∧ parse_calls cs.
Proof.
  revert st. induction form_data_list as [|form_data rest IH]; intros st; [done|].
  rewrite try_strategies_cons.
  destruct (try_methods _ _ _ _ _ _ _ st) as [r st1] eqn:Hm.
  destruct r as [c'|].
  - intros [= <- <-].
    apply try_methods_found in Hm
      as ((h & m & e & r & Hin & Hr & Hs & Hp & Hl) & (evs & req & cs & Hh & Hcs)).
    split.
    + exists h, form_data, m, e, r. split; [left|done].
    + exists evs, req, cs. split; [|done]. simpl. rewrite Hh.
      by rewrite <- !app_assoc.
  - intros H. apply try_methods_counts in Hm as (evs1 & Hh1 & _).
    destruct (IH _ H) as ((h & f & m & e & r & Hin & Hrest) & (evs & req & cs & Hh & Hcs)).
    split.
    + exists h, f, m, e, r. split; [by right|done].
    + exists (evs1 ++ [Slept 2] ++ evs), req, cs. split; [|done].
      rewrite Hh. simpl. rewrite Hh1. by rewrite <- !app_assoc.
Qed.

Lemma try_strategies_counts url form_data_list case_type case_number filing_year
    st res st' :
  try_strategies server url form_data_list case_type case_number filing_year st
    = (res, st') ->
  ∃ evs, history st' = history st ++ evs
         ∧ search_urls st' = search_urls st ∧ working_url st' = working_url st
         ∧ (length (requests evs) <= 5 * length form_data_list)%nat
         ∧ (length (pauses evs) <= length form_data_list)%nat
         ∧ Forall (fun seconds => seconds = 2) (pauses evs)
         ∧ (extractions evs <= length form_data_list)%nat
         ∧ (res = None -> length (pauses evs) = length form_data_list).
Proof.
  revert st. induction form_data_list as [|form_data rest IH]; intros st.
  - intros [= <- <-]. exists []. rewrite app_nil_r.
    repeat split; try (cbv; lia). constructor.
  - rewrite try_strategies_cons.
    destruct (try_methods _ _ _ _ _ _ _ st) as [r st1] eqn:Hm.
    apply try_methods_counts in Hm as (evs1 & Hh1 & Hu1 & Hw1 & Hn1 & Hp1 & He1).
    change (length methods_to_try) with 5%nat in Hn1.
    destruct r as [c|].
    + intros [= <- <-]. exists (evs1 ++ [Slept 2]).
      split; [simpl; by rewrite Hh1, <- app_assoc|]. split; [done|]. split; [done|].
      rewrite requests_app, pauses_app, extractions_app, !List.length_app, Hp1.
      change (requests [Slept 2]) with (@nil request).
      change (extractions [Slept 2]) with 0%nat. simpl.
      split; [lia|]. split; [lia|]. split; [by repeat constructor|]. split; [lia|done].
    + intros H. destruct (IH _ H) as (evs & Hh & Hu & Hw & Hn & Hp & Hf & He & Hnone).
      exists (evs1 ++ [Slept 2] ++ evs).
      split; [rewrite Hh; simpl; by rewrite Hh1, <- !app_assoc|].
      split; [by rewrite Hu|]. split; [by rewrite Hw|].
      rewrite !requests_app, !pauses_app, !extractions_app, !List.length_app, Hp1.
      change (requests [Slept 2]) with (@nil request).
      change (extractions [Slept 2]) with 0%nat. simpl.
      split; [lia|]. split; [lia|]. split; [by constructor|]. split; [lia|].
      intros Hr. by rewrite (Hnone Hr).
Qed.

(** When no reply has status 200, the inner loop tries every combination
    and changes nothing but the history. *)
Lemma try_methods_exhausts url form_data case_type case_number filing_year methods st :
  never_200 server ->
  try_methods server url form_data case_type case_number filing_year methods st
  = (None, after st (submissions url form_data methods)).
Proof.
  intros Hnever. revert st. induction methods as [|[method endpoint] methods IH]; intros st.
  - simpl. by rewrite after_nil.
  - rewrite try_methods_cons. cbv zeta.
    assert (try_methods server url form_data case_type case_number filing_year methods
              (after st [Sent (submission method (url +:+ endpoint) form_data)])
            = (None, after st (submissions url form_data ((method, endpoint) :: methods))))
      as Hnext by (by rewrite IH, after_after).
    destruct (server _ _) as [r|e|e] eqn:Hr; [|exact Hnext..].
    destruct (Z.eqb_spec (status_code r) 200) as [Hs|_]; [|exact Hnext].
    by destruct (Hnever _ _ _ Hr).
Qed.

Lemma try_strategies_exhausts url form_data_list case_type case_number filing_year st :
  never_200 server ->
  try_strategies server url form_data_list case_type case_number filing_year st
  = (None, after st (exhaustive_run url form_data_list)).
Proof.
  intros Hnever. revert st. induction form_data_list as [|form_data rest IH]; intros st.
  - simpl. by rewrite after_nil.
  - rewrite try_strategies_cons, try_methods_exhausts by done.
    rewrite IH, !after_after. unfold exhaustive_run. simpl. done.
Qed.

(** X12. The executor has two outcomes only.  Either it returns a record:
    then the record is meaningful, it was parsed from a reply with status
    200 that the site gave to the submission of one of the parameter sets
    by one of the five method and path combinations, and the text of that
    reply is kept as [last_raw_response].  Or it reports that the
    strategies are exhausted, with the number of parameter sets. *)
Theorem X12_executor_outcomes url form_data_list case_type case_number filing_year
    st out st' :
  _attempt_search_submissions server url form_data_list case_type case_number
    filing_year st = (out, st') ->
  (∃ c h form_data method endpoint r,
      out = Found c
      ∧ _is_valid_case_data c = true
      ∧ form_data ∈ form_data_list
      ∧ (method, endpoint) ∈ methods_to_try
      ∧ server h (submission method (url +:+ endpoint) form_data) = Reply r
      ∧ status_code r = 200
      ∧ parsed_from r case_type case_number filing_year c
      ∧ last_raw_response st' = Some (text r))
  ∨ out = Failed (StrategiesExhausted (length form_data_list)).
Proof.
  unfold _attempt_search_submissions, bind.
  destruct (try_strategies _ _ _ _ _ _ st) as [res st1] eqn:Hs.
  destruct res as [c|]; intros [= <- <-]; [left|by right].
  apply try_strategies_found in Hs as ((h & f & m & e & r & Hf & Hm & Hr & H200 & Hp & Hl) & _).
  exists c, h, f, m, e, r. split; [done|]. split; [by eapply parsed_from_valid|done].
Qed.

(** X13. One run of the executor sends at most five requests per
    parameter set, has at most one reply per parameter set parsed, and
    pauses two seconds after each parameter set it tried: as many pauses
    as parameter sets when it ends without a record.  It leaves the
    candidate list and the cached URL as they were. *)
Theorem X13_executor_is_bounded url form_data_list case_type case_number filing_year
    st out st' :
  _attempt_search_submissions server url form_data_list case_type case_number
    filing_year st = (out, st') ->
  ∃ evs, history st' = history st ++ evs
         ∧ search_urls st' = search_urls st ∧ working_url st' = working_url st
         ∧ (length (requests evs) <= 5 * length form_data_list)%nat
         ∧ (extractions evs <= length form_data_list)%nat
         ∧ (length (pauses evs) <= length form_data_list)%nat
         ∧ Forall (fun seconds => seconds = 2) (pauses evs)
         ∧ ((∀ c, out ≠ Found c) -> length (pauses evs) = length form_data_list).
Proof.
  unfold _attempt_search_submissions, bind.
  destruct (try_strategies _ _ _ _ _ _ st) as [res st1] eqn:Hs.
  apply try_strategies_counts in Hs as (evs & Hh & Hu & Hw & Hn & Hp & Hf & He & Hnone).
  destruct res as [c|]; intros [= <- <-]; exists evs;
    (split; [done|]); (split; [done|]); (split; [done|]); (split; [done|]);
    (split; [done|]); (split; [done|]); (split; [done|]).
  - intros Hnot. by destruct (Hnot c).
  - intros _. by apply Hnone.
Qed.

(** X14. When the site never answers a submission with status 200, the
    executor tries every parameter set with every method and path
    combination, in order, pausing after each parameter set; it calls
    neither the extractor nor the obstacle detector, leaves
    [last_raw_response] untouched and reports the strategies exhausted. *)
Theorem X14_nothing_but_failures_exhausts_every_combination
    url form_data_list case_type case_number filing_year st :
  never_200 server ->
  _attempt_search_submissions server url form_data_list case_type case_number
    filing_year st
  = (Failed (StrategiesExhausted (length form_data_list)),
     after st (exhaustive_run url form_data_list)).
Proof.
  intros Hnever. unfold _attempt_search_submissions, bind.
  by rewrite try_strategies_exhausts.
Qed.

(** X15. First success wins: when the executor returns a record, the
    last request it sent is the one whose reply was parsed; after it come
    only the calls of the parsing helpers and one pause. *)
Theorem X15_nothing_is_sent_after_a_success
    url form_data_list case_type case_number filing_year st c st' :
  _attempt_search_submissions server url form_data_list case_type case_number
    filing_year st = (Found c, st') ->
  ∃ evs req cs,
    history st' = history st ++ evs ++ Sent req :: (Called <$> cs) ++ [Slept 2]
    ∧ parse_calls cs.
Proof.
  unfold _attempt_search_submissions, bind.
  destruct (try_strategies _ _ _ _ _ _ st) as [res st1] eqn:Hs.
  destruct res as [c'|]; intros [= <- <-].
  by apply try_strategies_found in Hs as (_ & Htrace).
Qed.

End Executor.

Lemma maintenance_never_200 : never_200 maintenance_server.
Proof. intros h req r [= <-]. done. Qed.

Lemma X12_witness :
  ∃ c r,
    (_attempt_search_submissions friendly_server "https://wardha.dcourts.gov.in/case-status/"
       (form_variations "CR" "12" 2020) "CR" "12" 2020 resolved_instance).1 = Found c
    ∧ _is_valid_case_data c = true
    ∧ parsed_from r "CR" "12" 2020 c
    ∧ petitioner c = ["Ramesh Kumar"].
Proof.
  destruct (X12_executor_outcomes friendly_server
              "https://wardha.dcourts.gov.in/case-status/" (form_variations "CR" "12" 2020)
              "CR" "12" 2020 resolved_instance _ _ (surjective_pairing _))
    as [(c & h & f & m & e & r & Hout & Hv & _ & _ & _ & _ & Hp & _)|Hex].
  - exists c, r. split; [done|]. split; [done|]. split; [done|].
    assert ((_attempt_search_submissions friendly_server
               "https://wardha.dcourts.gov.in/case-status/"
               (form_variations "CR" "12" 2020) "CR" "12" 2020 resolved_instance).1
            = Found (_extract_case_info (soup record_response) "CR" "12" 2020)) as Hrun
      by (vm_compute; reflexivity).
    rewrite Hrun in Hout. injection Hout as <-. vm_compute. reflexivity.
  - exfalso. vm_compute in Hex. discriminate Hex.
Defined.

Lemma X13_witness :
  ∃ evs,
    history (_attempt_search_submissions maintenance_server "https://a.example/"
               (form_variations "CR" "12" 2020) "CR" "12" 2020 resolved_instance).2
    = history resolved_instance ++ evs
    ∧ (length (requests evs) <= 35)%nat ∧ length (pauses evs) = 7%nat.
Proof.
  destruct (X13_executor_is_bounded maintenance_server "https://a.example/"
              (form_variations "CR" "12" 2020) "CR" "12" 2020 resolved_instance _ _
              (surjective_pairing _))
    as (evs & Hh & _ & _ & Hn & _ & _ & _ & Hnone).
  exists evs. split; [exact Hh|]. split; [exact Hn|].
  apply Hnone. intros c Hc. vm_compute in Hc. discriminate Hc.
Defined.

Lemma X14_witness :
  _attempt_search_submissions maintenance_server "https://a.example/"
    (form_variations "CR" "12" 2020) "CR" "12" 2020 resolved_instance
  = (Failed (StrategiesExhausted 7),
     after resolved_instance
       (exhaustive_run "https://a.example/" (form_variations "CR" "12" 2020))).
Proof.
  exact (X14_nothing_but_failures_exhausts_every_combination maintenance_server
           "https://a.example/" (form_variations "CR" "12" 2020) "CR" "12" 2020
           resolved_instance maintenance_never_200).
Defined.

Lemma X15_witness :
  ∃ evs req cs,
    history (_attempt_search_submissions friendly_server
               "https://wardha.dcourts.gov.in/case-status/"
               (form_variations "CR" "12" 2020) "CR" "12" 2020 resolved_instance).2
    = history resolved_instance ++ evs ++ Sent req :: (Called <$> cs) ++ [Slept 2]
    ∧ parse_calls cs.
Proof.
  apply (X15_nothing_is_sent_after_a_success friendly_server
           "https://wardha.dcourts.gov.in/case-status/" (form_variations "CR" "12" 2020)
           "CR" "12" 2020 resolved_instance
           (_extract_case_info (soup record_response) "CR" "12" 2020)).
  vm_compute. reflexivity.
Defined.

(* ===================================================================== *)
(** * Further properties: the resolver and a whole query *)
(* ===================================================================== *)

Lemma requests_probes (urls : list string) : requests (probes urls) = probe <$> urls.
Proof. induction urls as [|u urls IH]; [done|]. simpl. by f_equal. Qed.

Lemma pauses_probes (urls : list string) : pauses (probes urls) = [].
Proof. by induction urls. Qed.

Lemma calls_probes (urls : list string) : calls (probes urls) = [].
Proof. by induction urls. Qed.

(** What [_find_working_url] leaves behind, cached URL or not. *)
Lemma find_working_url_frame (server : remote) st res st' :
  _find_working_url server st = (res, st') ->
  search_urls st' = search_urls st
  ∧ last_raw_response st' = last_raw_response st
  ∧ (∃ k : nat, history st' = history st ++ probes (take k (search_urls st)))
  ∧ match res with
    | Some u => working_url st' = Some u
                ∧ ((working_url st = Some u ∧ u ≠ "" ∧ st' = st) ∨ u ∈ search_urls st)
    | None => working_url st' = working_url st ∧ truthy (working_url st) = false
    end.
Proof.
  unfold _find_working_url. destruct (truthy (working_url st)) eqn:Ht.
  - intros [= <- <-]. split; [done|]. split; [done|].
    split; [exists 0%nat; simpl; by rewrite app_nil_r|].
    destruct (working_url st) as [u|]; [|done].
    split; [done|]. left. split; [done|]. split; [by apply nonempty_true|done].
  - intros H. apply probe_urls_result in H as (Hs & Hl & Hk & Hres).
    split; [done|]. split; [done|]. split; [done|].
    destruct res as [u|]; [|done]. destruct Hres. split; [done|by right].
Qed.

(** X16. Whatever the site does, the resolver only sends probes: to the
    candidates, in their order, each at most once, and none when a URL is
    cached.  It leaves the candidate list and [last_raw_response]
    untouched.  A URL it returns is cached afterwards and is the
    previously cached one or one of the candidates; when it returns
    nothing, no URL was cached and none is cached now. *)
Theorem X16_resolver_only_probes_candidates (server : remote) st res st' :
  _find_working_url server st = (res, st') ->
  search_urls st' = search_urls st
  ∧ last_raw_response st' = last_raw_response st
  ∧ (∃ k : nat, history st' = history st ++ probes (take k (search_urls st)))
  ∧ match res with
    | Some u => working_url st' = Some u
                ∧ ((working_url st = Some u ∧ u ≠ "" ∧ st' = st) ∨ u ∈ search_urls st)
    | None => working_url st' = working_url st ∧ truthy (working_url st) = false
    end.
Proof. apply find_working_url_frame. Qed.

Lemma X16_witness :
  ∃ k : nat,
    history (_find_working_url flaky_server four_candidates).2
    = history four_candidates ++ probes (take k (search_urls four_candidates)).
Proof.
  destruct (X16_resolver_only_probes_candidates flaky_server four_candidates _ _
              (surjective_pairing _)) as (_ & _ & Hk & _).
  exact Hk.
Defined.

(** [fetch_case_data], case by case. *)
Lemma fetch_case_data_cases (server : remote) case_type case_number filing_year
    st out st' :
  fetch_case_data server case_type case_number filing_year st = (out, st') ->
  ∃ res st1,
    _find_working_url server st = (res, st1)
    ∧ ((truthy res = false ∧ out = Failed NotAccessible ∧ st' = st1)
       ∨ ∃ url, res = Some url ∧ url ≠ ""
           ∧ ((∃ e, server (history st1) (load url) = RequestException e
                    ∧ out = Failed (NetworkError e)
                    ∧ st' = after st1 [Sent (load url)])
              ∨ (∃ e, server (history st1) (load url) = OtherException e
                      ∧ out = Failed (UnexpectedError e)
                      ∧ st' = after st1 [Sent (load url)])
              ∨ ∃ search_page,
                  server (history st1) (load url) = Reply search_page
                  ∧ after_loading server case_type case_number filing_year
                      url st1 search_page out st')).
Proof.
  unfold fetch_case_data. unfold bind at 1.
  destruct (_find_working_url server st) as [res st1] eqn:Hres.
  intros H. exists res, st1. split; [done|].
  destruct (truthy res) eqn:Ht; simpl in H.
  2:{ injection H as <- <-. by left. }
  right. destruct res as [url|]; [|done]. exists url.
  split; [done|]. split; [by apply nonempty_true|].
  cbn [default from_option id] in H. unfold bind at 1 in H.
  fold (load url) in H. rewrite send_after in H.
  destruct (server (history st1) (load url)) as [search_page|e|e].
  2:{ injection H as <- <-. left. by exists e. }
  2:{ injection H as <- <-. right. left. by exists e. }
  right. right. exists search_page. split; [done|]. unfold after_loading. cbv zeta.
  destruct ((400 <=? status_code search_page) && (status_code search_page <? 600)).
  { destruct (status_code search_page =? 404); by injection H as <- <-. }
  unfold bind at 1 in H. rewrite log_after, after_after in H. simpl app in H.
  destruct (has_captcha (_check_captcha (soup search_page))).
  { by injection H as <- <-. }
  unfold bind in H.
  destruct (_attempt_search_submissions _ _ _ _ _ _ _) as [out0 st3].
  exists out0. by destruct out0; injection H as <- <-.
Qed.







(** X18. The cost of one query, whichever way it ends (the exit through
    the handler at the end of the function included).  It sends at most
    one probe per candidate (none when a URL is cached), one request for
    the search page and 35 submissions; it has at most seven replies parsed; it pauses at most
    seven times, two seconds each; and it leaves the candidate list as it
    was. *)
Theorem X18_query_is_bounded (server : remote) case_type case_number filing_year
    st out st' :
  fetch_case_data server case_type case_number filing_year st = (out, st') ->
  ∃ evs, history st' = history st ++ evs
         ∧ search_urls st' = search_urls st
         ∧ (length (requests evs) <= length (search_urls st) + 36)%nat
         ∧ (truthy (working_url st) = true -> (length (requests evs) <= 36)%nat)
         ∧ (extractions evs <= 7)%nat
         ∧ (length (pauses evs) <= 7)%nat
         ∧ Forall (fun seconds => seconds = 2) (pauses evs).
Proof.
  intros H. apply fetch_case_data_cases in H as (res & st1 & Hres & Hcases).
  assert (∃ k : nat, history st1 = history st ++ probes (take k (search_urls st))
                     ∧ search_urls st1 = search_urls st
                     ∧ (truthy (working_url st) = true -> k = 0%nat)) as (k & Hk & Hu & Hcached).
  { pose proof Hres as Hres'.
    apply find_working_url_frame in Hres as (Hu & _ & (k & Hk) & _).
    unfold _find_working_url in Hres'. destruct (truthy (working_url st)).
    - injection Hres' as _ <-. exists 0%nat. simpl. by rewrite app_nil_r.
    - by exists k. }
  assert (∀ tail, (length (requests tail) <= 36)%nat ->
            (length (requests (probes (take k (search_urls st)) ++ tail))
             <= length (search_urls st) + 36)%nat
            ∧ (truthy (working_url st) = true ->
               (length (requests (probes (take k (search_urls st)) ++ tail)) <= 36)%nat))
    as Hreq.
  { intros tail Ht. rewrite requests_app, List.length_app, requests_probes, length_fmap.
    split.
    - pose proof (length_take_le (search_urls st) k). rewrite length_take. lia.
    - intros Hc. rewrite (Hcached Hc). simpl. lia. }
  assert (∀ tail, extractions (probes (take k (search_urls st)) ++ tail) = extractions tail)
    as Hext.
  { intros tail. rewrite extractions_app. unfold extractions at 1.
    by rewrite calls_probes. }
  assert (∀ tail, pauses (probes (take k (search_urls st)) ++ tail) = pauses tail) as Hpause.
  { intros tail. by rewrite pauses_app, pauses_probes. }
  assert (∀ tail,
            history st' = history st1 ++ tail -> search_urls st' = search_urls st1 ->
            (length (requests tail) <= 36)%nat -> (extractions tail <= 7)%nat ->
            (length (pauses tail) <= 7)%nat ->
            Forall (fun seconds => seconds = 2) (pauses tail) ->
            ∃ evs, history st' = history st ++ evs
                   ∧ search_urls st' = search_urls st
                   ∧ (length (requests evs) <= length (search_urls st) + 36)%nat
                   ∧ (truthy (working_url st) = true -> (length (requests evs) <= 36)%nat)
                   ∧ (extractions evs <= 7)%nat
                   ∧ (length (pauses evs) <= 7)%nat
                   ∧ Forall (fun seconds => seconds = 2) (pauses evs)) as Hend.
  { intros tail Hh Hs Hr He Hp Hf.
    exists (probes (take k (search_urls st)) ++ tail).
    split; [by rewrite Hh, Hk, <- app_assoc|]. split; [by rewrite Hs|].
    destruct (Hreq tail Hr) as [Hr1 Hr2].
    split; [done|]. split; [done|]. rewrite Hext, Hpause. done. }
  destruct Hcases as [(_ & _ & ->)|(url & _ & _ & Hload)].
  { apply (Hend []); [by rewrite app_nil_r|done|cbv; lia..|constructor]. }
  destruct Hload as [(e & _ & _ & ->)|[(e & _ & _ & ->)|(search_page & _ & Hl)]].
  { apply (Hend [Sent (load url)]); [done|done|cbv; lia..|constructor]. }
  { apply (Hend [Sent (load url)]); [done|done|cbv; lia..|constructor]. }
  unfold after_loading in Hl. cbv zeta in Hl.
  destruct ((400 <=? status_code search_page) && (status_code search_page <? 600)).
  { destruct Hl as [-> _].
    apply (Hend [Sent (load url)]); [done|done|cbv; lia..|constructor]. }
  destruct (has_captcha (_check_captcha (soup search_page))).
  { destruct Hl as [-> _].
    apply (Hend [Sent (load url); Called CheckCaptcha]); [done|done|cbv; lia..|constructor]. }
  destruct Hl as (out0 & Hrun & _).
  unfold _attempt_search_submissions, bind in Hrun.
  destruct (try_strategies _ _ _ _ _ _ _) as [r st3] eqn:Hstr.
  assert (st3 = st') as -> by (by destruct r; injection Hrun).
  apply try_strategies_counts in Hstr as (evs & Hh & Hs & _ & Hn & Hp & Hf & He & _).
  rewrite prepare_form_data_length in Hn, Hp, He.
  apply (Hend ([Sent (load url); Called CheckCaptcha] ++ evs)).
  - rewrite Hh. simpl. by rewrite <- app_assoc.
  - by rewrite Hs.
  - rewrite requests_app, List.length_app. simpl. lia.
  - rewrite extractions_app. change (extractions [Sent (load url); Called CheckCaptcha]) with 0%nat. lia.
  - by rewrite pauses_app.
  - by rewrite pauses_app.
Qed.

Lemma X18_witness :
  ∃ evs, history (fetch_case_data friendly_server "CR" "12" 2020 new_scraper).2
         = history new_scraper ++ evs
         ∧ (length (requests evs) <= length (search_urls new_scraper) + 36)%nat
         ∧ (length (pauses evs) <= 7)%nat.
Proof.
  destruct (X18_query_is_bounded friendly_server "CR" "12" 2020 new_scraper _ _
              (surjective_pairing _)) as (evs & Hh & _ & Hn & _ & _ & Hp & _).
  exists evs. split; [exact Hh|]. split; [exact Hn|exact Hp].
Defined.




(* ===================================================================== *)
(** * Further properties: the diagnostic entry points *)
(* ===================================================================== *)

(** When the loop over the candidates selects none, it has probed all. *)
Lemma probe_urls_none (server : remote) urls st st' :
  probe_urls server urls st = (None, st') -> st' = after st (probes urls).
Proof.
  revert st. induction urls as [|v urls IH]; intros st H.
  - simpl in H. injection H as <-. by rewrite after_nil.
  - destruct (classic_qualifies (server (history st) (probe v))) as [Hq|Hq].
    + by rewrite (probe_urls_qualifies server v urls st Hq) in H.
    + rewrite (probe_urls_not_qualifies server v urls st Hq) in H.
      apply IH in H as ->. by rewrite after_after.
Qed.

Lemma inspect_page_ok (soup : node) : inspection_ok (inspect_page soup).
Proof.
  unfold inspection_ok, inspect_page. cbv zeta. cbn [search_capability].
  destruct (find_all ["form"] soup) as [|form forms]; [done|].
  destruct (has_captcha (_check_captcha soup)); simpl;
    (split; [done|]); eexists; (split; [done|]); lia.
Qed.

(** [test_connection], case by case. *)
Lemma test_connection_cases (server : remote) st conn st' :
  test_connection server st = (conn, st') ->
  ∃ res st1,
    _find_working_url server st = (res, st1)
    ∧ ((truthy res = false ∧ conn = ConnectionError (search_urls st1) ∧ st' = st1)
       ∨ ∃ url, res = Some url ∧ url ≠ ""
           ∧ ((∃ e, (server (history st1) (probe url) = RequestException e
                     ∨ server (history st1) (probe url) = OtherException e)
                    ∧ conn = ConnectionSuccess url
                               (Inspection None None None (ErrorTesting e) None)
                    ∧ st' = after st1 [Sent (probe url)])
              ∨ ∃ r, server (history st1) (probe url) = Reply r
                     ∧ conn = ConnectionSuccess url (inspect_page (soup r))
                     ∧ st' = after st1 [Sent (probe url); Called CheckCaptcha])).
Proof.
  unfold test_connection. unfold bind at 1.
  destruct (_find_working_url server st) as [res st1] eqn:Hres.
  intros H. exists res, st1. split; [done|].
  destruct (truthy res) eqn:Ht.
  2:{ unfold bind, current, ret in H. injection H as <- <-. by left. }
  right. destruct res as [url|]; [|done]. exists url.
  split; [done|]. split; [by apply nonempty_true|].
  cbn [default from_option id] in H. unfold bind at 1 in H.
  fold (probe url) in H. rewrite send_after in H.
  destruct (server (history st1) (probe url)) as [r|e|e].
  - right. exists r. split; [done|].
    unfold bind in H. rewrite log_after, after_after in H. by injection H as <- <-.
  - left. exists e. injection H as <- <-. split; [by left|done].
  - left. exists e. injection H as <- <-. split; [by right|done].
Qed.

(** X20. The report of [test_connection], when no candidate is the empty
    string.  An error report lists the candidates, and each of them has
    then been probed, in order, with no URL cached before or after.  A success report names the cached URL;
    its capability is [available] only with at least one form and no
    CAPTCHA, [available_with_captcha] only with at least one form and a
    CAPTCHA, [forms_not_found] exactly when the page has no form (a
    CAPTCHA on such a page does not change it), and an [error_testing]
    report has none of the other keys.  The status of the page is not
    looked at. *)
Theorem X20_connection_report (server : remote) st conn st' :
  "" ∉ search_urls st ->
  test_connection server st = (conn, st') ->
  match conn with
  | ConnectionError tested_urls =>
      tested_urls = search_urls st
      ∧ truthy (working_url st) = false
      ∧ st' = after st (probes tested_urls)
  | ConnectionSuccess url i =>
      working_url st' = Some url ∧ url ≠ "" ∧ inspection_ok i
      ∧ (search_capability i = FormsNotFound <-> search_forms_found i = Some 0%nat)
  end.
Proof.
  intros Hurls H. apply test_connection_cases in H as (res & st1 & Hres & Hcases).
  destruct Hcases as [(Ht & -> & ->)|(url & -> & Hne & Hcases)].
  - unfold _find_working_url in Hres.
    destruct (truthy (working_url st)) eqn:Hw.
    + injection Hres as <- <-. by rewrite Hw in Ht.
    + destruct res as [u|].
      * apply probe_urls_result in Hres as (_ & _ & _ & Hu & _).
        destruct u; [done|discriminate Ht].
      * apply probe_urls_none in Hres as ->. done.
  - apply find_working_url_frame in Hres as (_ & _ & _ & Hw & _).
    destruct Hcases as [(e & _ & -> & ->)|(r & _ & -> & ->)].
    + split; [done|]. split; [done|]. split; [done|]. simpl. split; done.
    + split; [done|]. split; [done|]. split; [apply inspect_page_ok|].
      unfold inspect_page. cbv zeta. cbn [search_capability search_forms_found].
      destruct (find_all ["form"] (soup r)) as [|form forms]; [done|].
      destruct (has_captcha (_check_captcha (soup r))); simpl; split; done.
Qed.

Lemma X20_witness :
  match (test_connection captcha_only_server new_scraper).1 with
  | ConnectionError _ => False
  | ConnectionSuccess url i =>
      url = "https://wardha.dcourts.gov.in/case-status-search-by-case-number/"
      ∧ inspection_ok i
      ∧ search_capability i = FormsNotFound ∧ captcha_required i = Some true
  end
  ∧ (test_connection unreachable new_scraper).2
    = after new_scraper (probes (search_urls new_scraper)).
Proof.
  assert ("" ∉ search_urls new_scraper) as Hurls
    by (apply (bool_decide_unpack _); vm_compute; exact I).
  pose proof (X20_connection_report captcha_only_server new_scraper _ _ Hurls
                (surjective_pairing _)) as H1.
  pose proof (X20_connection_report unreachable new_scraper _ _ Hurls
                (surjective_pairing _)) as H2.
  split.
  - assert ((test_connection captcha_only_server new_scraper).1
            = ConnectionSuccess "https://wardha.dcourts.gov.in/case-status-search-by-case-number/"
                (inspect_page (soup challenge_with_record))) as Hrun
      by (vm_compute; reflexivity).
    rewrite Hrun in H1 |- *. destruct H1 as (_ & _ & Hok & _).
    split; [reflexivity|]. split; [exact Hok|]. vm_compute. split; reflexivity.
  - assert ((test_connection unreachable new_scraper).1
            = ConnectionError (search_urls new_scraper)) as Hrun
      by (vm_compute; reflexivity).
    rewrite Hrun in H2. by destruct H2 as (_ & _ & ->).
Defined.

Lemma only_looked_probes st k :
  only_looked st (after st (probes (take k (search_urls st)))).
Proof.
  split; [done|]. split; [done|]. eexists. split; [done|].
  rewrite requests_probes, pauses_probes. unfold extractions. rewrite calls_probes.
  split; [apply Forall_fmap, Forall_forall; intros u _; by exists u|].
  rewrite length_fmap, length_take. split; [lia|done].
Qed.

Lemma only_looked_one_more st st1 url tail :
  only_looked st st1 ->
  (∃ k : nat, history st1 = history st ++ probes (take k (search_urls st))) ->
  calls tail = [] ∨ calls tail = [CheckCaptcha] ->
  requests tail = [] -> pauses tail = [] ->
  only_looked st (after st1 (Sent (probe url) :: tail)).
Proof.
  intros (Hu & Hl & _) (k & Hk) Hc Hr Hp.
  split; [done|]. split; [done|].
  exists (probes (take k (search_urls st)) ++ Sent (probe url) :: tail).
  split; [simpl; by rewrite Hk, <- app_assoc|].
  rewrite requests_app, pauses_app, extractions_app, requests_probes, pauses_probes.
  change (requests (Sent (probe url) :: tail)) with (probe url :: requests tail).
  change (pauses (Sent (probe url) :: tail)) with (pauses tail).
  rewrite Hr, Hp.
  split.
  { apply Forall_app. split; [apply Forall_fmap, Forall_forall; intros u _; by exists u|].
    apply Forall_singleton. by exists url. }
  rewrite List.length_app, length_fmap, length_take. split; [simpl; lia|]. split; [done|].
  unfold extractions. rewrite calls_probes.
  change (calls (Sent (probe url) :: tail)) with (calls tail).
  by destruct Hc as [-> | ->].
Qed.

Lemma find_working_url_only_looked (server : remote) st res st1 :
  _find_working_url server st = (res, st1) ->
  only_looked st st1 ∧ ∃ k : nat, history st1 = history st ++ probes (take k (search_urls st)).
Proof.
  intros H. apply find_working_url_frame in H as (Hu & Hl & (k & Hk) & _).
  split; [|by exists k].
  destruct (only_looked_probes st k) as (_ & _ & evs & Hevs & Hrest).
  split; [done|]. split; [done|]. exists evs. split; [|done].
  rewrite Hk. exact Hevs.
Qed.

(** X21. The two diagnostic entry points only look: whatever the site
    answers, [test_connection] and [get_supported_case_types] send the
    resolver's probes and at most one more GET of the same shape (no
    parameters, no referer, 15 seconds), so at most one request per
    candidate plus one; they submit nothing, never pause, have no reply
    parsed for case data, and leave the candidate list and
    [last_raw_response] as they were. *)
Theorem X21_diagnostics_only_look (server : remote) (st : scraper) :
  (∀ conn st', test_connection server st = (conn, st') -> only_looked st st')
  ∧ (∀ types st', get_supported_case_types server st = (types, st') -> only_looked st st').
Proof.
  split.
  - intros conn st' H. apply test_connection_cases in H as (res & st1 & Hres & Hcases).
    apply find_working_url_only_looked in Hres as [Hlook Hk].
    destruct Hcases as [(_ & _ & ->)|(url & _ & _ & [(e & _ & _ & ->)|(r & _ & _ & ->)])].
    + done.
    + apply only_looked_one_more; try done. by left.
    + apply only_looked_one_more; try done. by right.
  - intros types st'. unfold get_supported_case_types. unfold bind at 1.
    destruct (_find_working_url server st) as [res st1] eqn:Hres.
    apply find_working_url_only_looked in Hres as [Hlook Hk].
    destruct (negb (truthy res)); [by intros [= _ <-]|].
    unfold bind. fold (probe (default "" res)). rewrite send_after.
    destruct (server _ _); intros [= _ <-];
      apply only_looked_one_more; try done; by left.
Qed.

Lemma X21_witness :
  only_looked new_scraper (test_connection captcha_only_server new_scraper).2
  ∧ only_looked new_scraper (get_supported_case_types dropdown_server new_scraper).2.
Proof.
  destruct (X21_diagnostics_only_look captcha_only_server new_scraper) as [H1 _].
  destruct (X21_diagnostics_only_look dropdown_server new_scraper) as [_ H2].
  split; [eapply H1|eapply H2]; apply surjective_pairing.
Defined.


(* ===================================================================== *)
(** * Further properties: failures of a query in the web application *)
(* ===================================================================== *)

Lemma startswith_longer (n s b : string) :
  startswith n s = true -> startswith n (s +:+ b) = true.
Proof.
  revert s. induction n as [|a n IH]; intros s; [done|].
  destruct s as [|c s]; [done|]. rewrite app_String. simpl.
  intros [-> H]%andb_true_iff. by rewrite (IH _ H).
Qed.

Lemma str_in_longer (n s b : string) : str_in n s = true -> str_in n (s +:+ b) = true.
Proof.
  induction s as [|c s IH].
  - simpl. rewrite orb_false_r. intros H. apply str_in_here.
    by apply (startswith_longer n "" b).
  - intros H. simpl in H. apply orb_true_iff in H as [H|H].
    + apply str_in_here. by apply startswith_longer.
    + rewrite app_String. simpl. rewrite (IH H). apply orb_true_r.
Qed.

Lemma str_in_later (n a s : string) : str_in n s = true -> str_in n (a +:+ s) = true.
Proof.
  intros H. induction a as [|c a IH]; [by rewrite app_empty|].
  rewrite app_String. simpl. rewrite IH. apply orb_true_r.
Qed.

Lemma any_in_later (ks : list string) (a s : string) :
  any_in ks s = true -> any_in ks (a +:+ s) = true.
Proof.
  unfold any_in. rewrite !existsb_exists. intros (k & Hk & Hin).
  exists k. split; [done|]. by apply str_in_later.
Qed.

Lemma any_in_longer (ks : list string) (s b : string) :
  any_in ks s = true -> any_in ks (s +:+ b) = true.
Proof.
  unfold any_in. rewrite !existsb_exists. intros (k & Hk & Hin).
  exists k. split; [done|]. by apply str_in_longer.
Qed.

(** No status line of an HTTP error other than 404 holds a keyword. *)
Lemma http_error_text_has_no_keyword (code : Z) :
  400 <= code < 600 -> code ≠ 404 ->
  any_in fallback_keywords (lower ("HTTP Error " +:+ str_of_int code)) = false.
Proof.
  intros Hrange Hne.
  assert (forallb (fun code => (code =? 404)
                               || negb (any_in fallback_keywords
                                          (lower ("HTTP Error " +:+ str_of_int code))))
            (seqZ 400 200) = true) as Hall by (vm_compute; reflexivity).
  rewrite forallb_forall in Hall.
  assert (In code (seqZ 400 200)) as Hin.
  { apply list_elem_of_In, elem_of_seqZ. lia. }
  apply Hall in Hin. apply orb_true_iff in Hin as [H|H].
  - apply Z.eqb_eq in H. done.
  - by apply negb_true_iff in H.
Qed.

(** X22. Which failures of [fetch_case_data] the web application replaces
    by demo data.  A network error while loading the search page always
    is.  "Not accessible", "page not found", an HTTP error and a CAPTCHA
    never are: their error text is shown (the keywords [404] and
    [connect] occur only in their [details]).  "Strategies exhausted" is
    replaced whenever the case type or the case number contains one of
    the keywords in any letter case, for instance a case number with
    [404] in it, since the error text quotes both. *)
Theorem X22_failures_replaced_by_demo_data (server : remote)
    case_type case_number filing_year st f st' :
  fetch_case_data server case_type case_number filing_year st = (Failed f, st') ->
  let error := error_text case_type case_number filing_year f in
  match f with
  | NetworkError _ =>
      scraper_result_shown case_type case_number filing_year (Failed f) = DemoData error
  | StrategiesExhausted _ =>
      any_in fallback_keywords (lower case_type) = true
      ∨ any_in fallback_keywords (lower case_number) = true ->
      scraper_result_shown case_type case_number filing_year (Failed f) = DemoData error
  | _ =>
      scraper_result_shown case_type case_number filing_year (Failed f) = ScraperError error
  end.
Proof.
  intros H. cbv zeta.
  assert (match f with
          | HttpError code => 400 <= code < 600 ∧ code ≠ 404
          | NoSearchForm | NotFoundIndicator _ | NothingExtracted _ => False
          | _ => True
          end) as Hf.
  { apply fetch_case_data_cases in H
      as (res & st1 & _ & [(_ & [= ->] & _)|(url & _ & _ & Hload)]); [done|].
    destruct Hload as [(e & _ & [= ->] & _)|[(e & _ & [= ->] & _)|(search_page & _ & Hl)]];
      [done..|].
    unfold after_loading in Hl. cbv zeta in Hl.
    destruct ((400 <=? status_code search_page) && (status_code search_page <? 600)) eqn:Hs.
    { destruct Hl as [_ [= ->]]. apply andb_true_iff in Hs as [H1 H2].
      apply Z.leb_le in H1. apply Z.ltb_lt in H2.
      destruct (Z.eqb_spec (status_code search_page) 404); [done|]. split; [lia|done]. }
    destruct (has_captcha (_check_captcha (soup search_page))).
    { by destruct Hl as [_ [= ->]]. }
    destruct Hl as (out0 & Hrun & Hout).
    unfold _attempt_search_submissions, bind in Hrun.
    destruct (try_strategies _ _ _ _ _ _ _) as [r st3].
    destruct r as [c|]; injection Hrun as <- _; [done|]. by injection Hout as ->. }
  destruct f as [| |code|e|info| | | |n|e]; try done.
  - destruct Hf as [Hrange Hne]. unfold scraper_result_shown. cbv zeta.
    change (error_text case_type case_number filing_year (HttpError code))
      with ("HTTP Error " +:+ str_of_int code).
    by rewrite http_error_text_has_no_keyword.
  - intros Hkey. unfold scraper_result_shown. cbv zeta.
    replace (any_in fallback_keywords
               (lower (error_text case_type case_number filing_year (StrategiesExhausted n))))
      with true; [done|].
    symmetry. unfold error_text. rewrite !lower_app.
    apply any_in_later.
    destruct Hkey as [Hkey|Hkey]; [by apply any_in_longer|].
    by apply any_in_later, any_in_later, any_in_longer.
Qed.

Lemma X22_witness :
  scraper_result_shown "CR" "1404" 2020
    (fetch_case_data refusing_server "CR" "1404" 2020 new_scraper).1
  = DemoData "Case CR 1404/2020 not found in Wardha District Court"
  ∧ scraper_result_shown "CR" "12" 2020
      (fetch_case_data maintenance_server "CR" "12" 2020 resolved_instance).1
    = ScraperError "HTTP Error 503".
Proof.
  assert ((fetch_case_data refusing_server "CR" "1404" 2020 new_scraper).1
          = Failed (StrategiesExhausted 7)) as Hrun1 by (vm_compute; reflexivity).
  assert ((fetch_case_data maintenance_server "CR" "12" 2020 resolved_instance).1
          = Failed (HttpError 503)) as Hrun2 by (vm_compute; reflexivity).
  pose proof (surjective_pairing
                (fetch_case_data refusing_server "CR" "1404" 2020 new_scraper)) as Hp1.
  pose proof (surjective_pairing
                (fetch_case_data maintenance_server "CR" "12" 2020 resolved_instance)) as Hp2.
  rewrite Hrun1 in Hp1 |- *. rewrite Hrun2 in Hp2 |- *.
  split.
  - apply (X22_failures_replaced_by_demo_data refusing_server "CR" "1404" 2020 _ _ _ Hp1).
    right. vm_compute. reflexivity.
  - exact (X22_failures_replaced_by_demo_data maintenance_server "CR" "12" 2020 _ _ _ Hp2).
Defined.
